(** * NVDAAL VBIOS extractor: a shallow embedding of [Tools/extract_vbios.py]

    The development follows the Python source function by function:
    [find_nvidia_gpus], [get_device_name], [read_vbios_from_device],
    [validate_vbios], [save_vbios] and [main].  Python values are modelled
    as follows.

    - [bytes] objects are [list byte]; a value that may be [None] is an
      [option].
    - [str] objects are [string]s holding the UTF-8 encoding of the text;
      [strip] trims every character Python counts as white space, the
      non-ASCII ones included, and [lower] is given on the ASCII letters.
    - Exceptions are the constructors of [exn]; a computation that may raise
      returns a [result].
    - Code that touches the file system, the terminal or the process state
      runs in the monad [M]: a function of the (immutable) operating-system
      oracle [env] and of the mutable [world]. *)

From Stdlib Require Import Strings.Byte Strings.Ascii.
From stdpp Require Import base numbers list strings gmap pretty.

Local Open Scope Z_scope.

(** ** Python values *)

Abbreviation bytes := (list byte).

#[global] Instance byte_eq_decision : EqDecision byte := byte_eq_dec.

#[global] Instance byte_inhabited : Inhabited byte := populate x00.

(** [len(x)] as a Python integer. *)
Definition len {A} (l : list A) : Z := Z.of_nat (length l).

(** [l[lo:hi]] for non-negative bounds; Python clamps both to the length. *)
Definition slice {A} (lo hi : nat) (l : list A) : list A :=
  take (hi - lo) (drop lo l).

(** Truthiness of an optional [bytes] object: [None] and [b""] are falsy. *)
Definition truthy (data : option bytes) : bool :=
  match data with
  | None | Some [] => false
  | Some (_ :: _) => true
  end.

(** ** Exceptions *)

Inductive exn : Type :=
  | PermissionError (msg : string)
  | OSError (msg : string)
  | UnicodeDecodeError
  | EOFError
  | IndexError
  | StructError
  | SystemExit (code : Z).

(** [except Exception] catches everything but [SystemExit]. *)
Definition is_Exception (e : exn) : bool :=
  match e with SystemExit _ => false | _ => true end.

Definition is_PermissionError (e : exn) : bool :=
  match e with PermissionError _ => true | _ => false end.

(** [str(e)] *)
Definition exn_str (e : exn) : string :=
  match e with
  | PermissionError msg | OSError msg => msg
  | UnicodeDecodeError => "invalid start byte"
  | EOFError => "EOF when reading a line"
  | IndexError => "list index out of range"
  | StructError => "unpack requires a buffer of 2 bytes"
  | SystemExit code => pretty code
  end.

Inductive result (A : Type) : Type :=
  | Ok (a : A)
  | Raise (e : exn).
Arguments Ok {A} a.
Arguments Raise {A} e.

#[global] Instance result_ret : MRet result := λ A a, Ok a.

#[global] Instance result_bind : MBind result := λ A B k r,
  match r with
  | Ok a => k a
  | Raise e => Raise e
  end.

(** ** Text operations *)

Module Py.

(** [c.lower()] on the ASCII letters.  The program lower-cases text only to
    compare it with ["y"] and to look it up under the ASCII keys of the
    device table. *)
Definition lower_char (c : ascii) : ascii :=
  let n := nat_of_ascii c in
  if ((65 <=? n) && (n <=? 90))%nat then ascii_of_nat (n + 32) else c.

(** [s.lower()] *)
Fixpoint lower (s : string) : string :=
  match s with
  | EmptyString => EmptyString
  | String c s' => String (lower_char c) (lower s')
  end.

(** [c.isspace()] for the character with code point [cp].  These are the
    characters CPython counts as white space: U+0009-U+000D, U+001C-U+0020,
    U+0085, U+00A0, U+1680, U+2000-U+200A, U+2028, U+2029, U+202F, U+205F and
    U+3000. *)
Definition isspace (cp : N) : bool :=
  (((9 <=? cp) && (cp <=? 13)) || ((28 <=? cp) && (cp <=? 32))
   || (cp =? 0x85) || (cp =? 0xA0) || (cp =? 0x1680)
   || ((0x2000 <=? cp) && (cp <=? 0x200A))
   || (cp =? 0x2028) || (cp =? 0x2029) || (cp =? 0x202F) || (cp =? 0x205F)
   || (cp =? 0x3000))%N.

(** A continuation byte of UTF-8. *)
Definition is_cont (c : ascii) : bool :=
  ((0x80 <=? N_of_ascii c) && (N_of_ascii c <=? 0xBF))%N.

(** The text starts with a white-space character encoded in one byte
    ([space1]), in two ([space2]) or in three ([space3]); no character
    encoded in four bytes is white space. *)
Definition space1 (c1 : ascii) : bool :=
  ((N_of_ascii c1 <? 0x80) && isspace (N_of_ascii c1))%N.

Definition space2 (c1 c2 : ascii) : bool :=
  ((0xC2 <=? N_of_ascii c1) && (N_of_ascii c1 <=? 0xDF) && is_cont c2
   && isspace ((N_of_ascii c1 - 0xC0) * 64 + (N_of_ascii c2 - 0x80)))%N.

Definition space3 (c1 c2 c3 : ascii) : bool :=
  let cp := ((N_of_ascii c1 - 0xE0) * 4096 + (N_of_ascii c2 - 0x80) * 64
             + (N_of_ascii c3 - 0x80))%N in
  ((0xE0 <=? N_of_ascii c1) && (N_of_ascii c1 <=? 0xEF) && is_cont c2
   && is_cont c3 && (0x800 <=? cp) && isspace cp)%N.

(** [s.lstrip()]: drops white-space characters while the text starts with
    one. *)
Fixpoint lstrip (s : string) : string :=
  match s with
  | EmptyString => EmptyString
  | String c1 s1 =>
      if space1 c1 then lstrip s1
      else
        match s1 with
        | String c2 s2 =>
            if space2 c1 c2 then lstrip s2
            else
              match s2 with
              | String c3 s3 => if space3 c1 c2 c3 then lstrip s3 else s
              | EmptyString => s
              end
        | EmptyString => s
        end
  end.

(** [s.rstrip()]: the text up to its last character that is not white
    space.  A byte is kept as long as what starts at it is not white space
    only; what starts inside a character never is, as a continuation byte
    starts no character. *)
Fixpoint rstrip (s : string) : string :=
  match s with
  | EmptyString => EmptyString
  | String c s' =>
      match lstrip s with
      | EmptyString => EmptyString
      | _ => String c (rstrip s')
      end
  end.

(** [s.strip()] *)
Definition strip (s : string) : string := rstrip (lstrip s).

(** [struct.unpack('<H', b)[0]]: raises unless [b] has exactly two bytes. *)
Definition unpack_H (b : bytes) : result nat :=
  match b with
  | [lo; hi] => Ok (Byte.to_nat lo + 256 * Byte.to_nat hi)%nat
  | _ => Raise StructError
  end.

End Py.

(** ** The ROM validator *)

(** [b'\x55\xAA'] *)
Definition ROM_SIGNATURE : bytes := [x55; xaa].

(** [b'PCIR'] *)
Definition PCIR : bytes := [x50; x43; x49; x52].

Definition MSG_TOO_SMALL : string := "Dados muito pequenos".
Definition MSG_BAD_SIGNATURE : string := "Assinatura ROM inválida (esperado 55 AA)".
Definition MSG_PCIR_FOUND : string := "VBIOS válido (PCIR encontrado)".
Definition MSG_SIGNATURE_ONLY : string := "VBIOS parece válido (assinatura 55 AA)".

Definition validate_vbios (data : option bytes) : result (bool * string) :=
  match data with
  | None => Ok (false, MSG_TOO_SMALL)            (* [not data] *)
  | Some d =>
      if negb (truthy data) || (len d <? 64) then Ok (false, MSG_TOO_SMALL)
      else if negb (bool_decide (slice 0 2 d = ROM_SIGNATURE)) then
        Ok (false, MSG_BAD_SIGNATURE)
      else
        pci_offset ← Py.unpack_H (slice 0x18 0x1A d);
        if Z.of_nat pci_offset + 4 <=? len d then
          let pci_sig := slice pci_offset (pci_offset + 4) d in
          if bool_decide (pci_sig = PCIR) then Ok (true, MSG_PCIR_FOUND)
          else Ok (true, MSG_SIGNATURE_ONLY)
        else Ok (true, MSG_SIGNATURE_ONLY)
  end.

(** ** The operating system and the process state *)

(** What an I/O call of the operating system can fail with. *)
Inductive io_error : Type :=
  | EPerm (msg : string)       (* raised as [PermissionError] *)
  | EIO (msg : string)         (* any other [OSError] *)
  | EDecode.                   (* text that is not valid UTF-8 *)

Definition exn_of_io (e : io_error) : exn :=
  match e with
  | EPerm msg => PermissionError msg
  | EIO msg => OSError msg
  | EDecode => UnicodeDecodeError
  end.

(** The oracle: what each call answers.  It is fixed during a run.  The
    existence test always answers; listings, reads and writes may fail. *)
Record env : Type := {
  os_path_exists : string → bool;              (* [os.path.exists(p)] *)
  os_listdir : string → io_error + list string;
                                               (* [os.listdir(p)] *)
  fs_read_text : string → io_error + string;   (* [open(p, 'r').read()] *)
  fs_read_bytes : string → io_error + bytes;   (* [open(p, 'rb').read()] *)
  fs_write_fault : string → bytes → option io_error
                                               (* [open(p, 'wb').write(b)] *)
}.

(** The calls a run issues, in order. *)
Inductive io_op : Type :=
  | OpExists (path : string)
  | OpListdir (path : string)
  | OpReadText (path : string)
  | OpReadBytes (path : string)
  | OpWrite (path : string) (data : bytes)
  | OpInput.

#[global] Instance io_op_eq_decision : EqDecision io_op.
Proof. solve_decision. Defined.

(** [files] records, for each path, the bytes of the last write that
    completed; what an attempt that failed leaves at the path (a regular
    file that could be opened is left truncated) is not tracked. *)
Record world : Type := {
  files : gmap string bytes;   (* the bytes last written to each path *)
  stdin : list string;         (* the lines still to be typed *)
  stdout : list string;        (* what was printed, oldest first *)
  trace : list io_op           (* the calls issued, oldest first *)
}.

Definition M (A : Type) : Type := env → world → result A * world.

#[global] Instance M_ret : MRet M := λ A a _ w, (Ok a, w).

#[global] Instance M_bind : MBind M := λ A B k m ev w,
  match m ev w with
  | (Ok a, w') => k a ev w'
  | (Raise e, w') => (Raise e, w')
  end.

#[global] Instance M_fmap : FMap M := λ A B f m ev w,
  match m ev w with
  | (Ok a, w') => (Ok (f a), w')
  | (Raise e, w') => (Raise e, w')
  end.

Definition raise {A} (e : exn) : M A := λ _ w, (Raise e, w).

Definition lift {A} (r : result A) : M A := λ _ w, (r, w).

Definition lift_io {A} (r : io_error + A) : M A := λ _ w,
  match r with
  | inl e => (Raise (exn_of_io e), w)
  | inr a => (Ok a, w)
  end.

(** [try: body except ...: handler]; [handler e = None] when no clause
    matches [e], which then propagates. *)
Definition try_except {A} (body : M A) (handler : exn → option (M A)) : M A :=
  λ ev w,
    match body ev w with
    | (Ok a, w') => (Ok a, w')
    | (Raise e, w') =>
        match handler e with
        | Some h => h ev w'
        | None => (Raise e, w')
        end
    end.

Definition log (op : io_op) : M unit := λ _ w,
  (Ok (), {| files := files w; stdin := stdin w; stdout := stdout w;
             trace := trace w ++ [op] |}).

(** [print(s)], on a standard output that takes the line. *)
Definition print (s : string) : M unit := λ _ w,
  (Ok (), {| files := files w; stdin := stdin w; stdout := stdout w ++ [s];
             trace := trace w |}).

Definition ask {A} (f : env → A) : M A := λ ev w, (Ok (f ev), w).

Definition path_exists (p : string) : M bool :=
  log (OpExists p);; ask (λ ev, os_path_exists ev p).

Definition listdir (p : string) : M (list string) :=
  log (OpListdir p);; r ← ask (λ ev, os_listdir ev p); lift_io r.

(** [with open(p, 'r') as f: f.read()] *)
Definition read_text (p : string) : M string :=
  log (OpReadText p);; r ← ask (λ ev, fs_read_text ev p); lift_io r.

(** [with open(p, 'rb') as f: f.read()] *)
Definition read_bytes (p : string) : M bytes :=
  log (OpReadBytes p);; r ← ask (λ ev, fs_read_bytes ev p); lift_io r.

Definition store (p : string) (b : bytes) : M unit := λ _ w,
  (Ok (), {| files := <[p := b]> (files w); stdin := stdin w;
             stdout := stdout w; trace := trace w |}).

(** [with open(p, 'wb') as f: f.write(b)]; only a write that completes is
    recorded in [files]. *)
Definition write_bytes (p : string) (b : bytes) : M unit :=
  log (OpWrite p b);;
  fault ← ask (λ ev, fs_write_fault ev p b);
  match fault with
  | Some e => raise (exn_of_io e)
  | None => store p b
  end.

Definition readline : M string := λ _ w,
  match stdin w with
  | [] => (Raise EOFError, w)
  | line :: rest =>
      (Ok line, {| files := files w; stdin := rest; stdout := stdout w;
                   trace := trace w |})
  end.

(** [input(prompt)]: shows the prompt, then takes one line. *)
Definition input (prompt : string) : M string :=
  print prompt;; log OpInput;; readline.

(** [sys.exit(code)] *)
Definition sys_exit {A} (code : Z) : M A := raise (SystemExit code).

(** The status the interpreter hands to the operating system when [main]
    finishes with [r]: 0 on a normal return, the code of [sys.exit], 1 after
    an uncaught exception. *)
Definition exit_status {A} (r : result A) : Z :=
  match r with
  | Ok _ => 0
  | Raise (SystemExit code) => code
  | Raise _ => 1
  end.

(** ** Paths *)

Definition startswith_sep (s : string) : bool :=
  match s with
  | String "/" _ => true
  | _ => false
  end.

Fixpoint endswith_sep (s : string) : bool :=
  match s with
  | EmptyString => false
  | String c EmptyString => bool_decide (c = "/"%char)
  | String _ s' => endswith_sep s'
  end.

(** One step of [os.path.join]: an absolute component restarts the path. *)
Definition join_step (path b : string) : string :=
  if startswith_sep b then b
  else if bool_decide (path = "") || endswith_sep path then path +:+ b
  else path +:+ "/" +:+ b.

(** [os.path.join(a, *p)] *)
Definition path_join (a : string) (p : list string) : string :=
  foldl join_step a p.

Definition PCI_BUS_PATH : string := "/sys/bus/pci/devices".

Definition vendor_path (device_dir : string) : string :=
  path_join PCI_BUS_PATH [device_dir; "vendor"].

Definition device_path (device_dir : string) : string :=
  path_join PCI_BUS_PATH [device_dir; "device"].

Definition rom_path (pci_addr : string) : string :=
  "/sys/bus/pci/devices/" +:+ pci_addr +:+ "/rom".

(** ** The device enumerator *)

Definition NVIDIA_VENDOR : string := "0x10de".

(** The body of the [for device_dir in os.listdir(PCI_BUS_PATH)] loop:
    [gpus] is the list built so far. *)
Fixpoint find_loop (entries : list string) (gpus : list (string * string))
  : M (list (string * string)) :=
  match entries with
  | [] => mret gpus
  | device_dir :: rest =>
      has_vendor ← path_exists (vendor_path device_dir);
      has_both ← (if (has_vendor : bool) then path_exists (device_path device_dir)
                  else mret false);
      if negb (has_both : bool) then find_loop rest gpus          (* continue *)
      else
        gpus' ← try_except
          (vendor ← Py.strip <$> read_text (vendor_path device_dir);
           device ← Py.strip <$> read_text (device_path device_dir);
           if bool_decide (vendor = NVIDIA_VENDOR)
           then mret (gpus ++ [(device_dir, device)])
           else mret gpus)
          (λ e, if is_Exception e then Some (mret gpus) else None);
        find_loop rest gpus'
  end.

Definition find_nvidia_gpus : M (list (string * string)) :=
  present ← path_exists PCI_BUS_PATH;
  if negb present then
    print "[!] Caminho PCI não encontrado. Este script deve ser executado no Linux.";;
    mret []
  else
    entries ← listdir PCI_BUS_PATH;
    find_loop entries [].

(** ** Device names *)

Definition devices : gmap string string :=
  list_to_map
    [ ("0x2684", "RTX 4090");
      ("0x2685", "RTX 4090 D");
      ("0x2702", "RTX 4080 Super");
      ("0x2704", "RTX 4080");
      ("0x2705", "RTX 4070 Ti Super");
      ("0x2782", "RTX 4070 Ti");
      ("0x2786", "RTX 4070");
      ("0x2860", "RTX 4070 Super") ].

Definition unknown_name (device_id : string) : string :=
  "Unknown (" +:+ device_id +:+ ")".

Definition get_device_name (device_id : string) : string :=
  default (unknown_name device_id) (devices !! Py.lower device_id).

(** ** The ROM capture protocol *)

(** [b"1"] and [b"0"] *)
Definition ENABLE : bytes := [x31].
Definition DISABLE : bytes := [x30].

Definition MSG_PERMISSION : string :=
  "[!] Permissão negada. Execute como root (sudo).".

Definition read_vbios_from_device (pci_addr : string) : M (option bytes) :=
  present ← path_exists (rom_path pci_addr);
  if negb present then
    print ("[!] ROM não encontrada em " +:+ rom_path pci_addr);;
    mret None
  else
    try_except
      (write_bytes (rom_path pci_addr) ENABLE;;
       data ← read_bytes (rom_path pci_addr);
       write_bytes (rom_path pci_addr) DISABLE;;
       mret (Some data))
      (λ e,
         if is_PermissionError e then
           Some (print MSG_PERMISSION;; mret None)
         else if is_Exception e then
           Some (print ("[!] Erro ao ler VBIOS em " +:+ pci_addr +:+ ": "
                        +:+ exn_str e);;
                 mret None)
         else None).

(** ** Persistence *)

(** [f"{len(data) / 1024:.1f}"]: the quotient by 1024 is an exact binary
    fraction, printed with one decimal, ties to even. *)
Definition format_kb (n : nat) : string :=
  let q := (Z.of_nat n * 10) `div` 1024 in
  let r := (Z.of_nat n * 10) `mod` 1024 in
  let tenths := if (512 <? r) || ((r =? 512) && Z.odd q) then q + 1 else q in
  pretty (tenths `div` 10) +:+ "." +:+ pretty (tenths `mod` 10).

Definition save_vbios (data : bytes) (output_file : string) : M bool :=
  '(valid, message) ← lift (validate_vbios (Some data));
  print ("[*] Validação: " +:+ message);;
  let write_out : M bool :=
    write_bytes output_file data;;
    print ("[+] VBIOS salvo em: " +:+ output_file +:+ " ("
           +:+ format_kb (length data) +:+ " KB)");;
    mret true in
  if negb valid then
    print "[!] VBIOS pode estar corrompido ou inválido";;
    response ← input "Deseja salvar mesmo assim? (y/n): ";
    if negb (bool_decide (Py.lower response = "y")) then mret false
    else write_out
  else write_out.

(** ** The command-line program *)

(** The namespace [parser.parse_args()] returns. *)
Record Args : Type := {
  args_output : string;     (* [-o], default ["vbios.rom"] *)
  args_list : bool;         (* [-l] *)
  args_index : Z            (* [-i], [type=int], default 0 *)
}.

Definition default_args : Args :=
  {| args_output := "vbios.rom"; args_list := false; args_index := 0 |}.

(** [l[i]] for a Python integer [i]: a negative index counts from the end,
    an index outside [-len(l) .. len(l) - 1] raises [IndexError]. *)
Definition getitem {A} (l : list A) (i : Z) : result A :=
  let j := if i <? 0 then i + len l else i in
  if (j <? 0) || (len l <=? j) then Raise IndexError
  else match l !! Z.to_nat j with
       | Some x => Ok x
       | None => Raise IndexError
       end.

Definition NL : string := String "010"%char EmptyString.

(** [for i, (addr, dev_id) in enumerate(gpus): print(...)] *)
Fixpoint print_gpus (i : nat) (gpus : list (string * string)) : M unit :=
  match gpus with
  | [] => mret ()
  | (addr, dev_id) :: rest =>
      let name := get_device_name dev_id in
      print ("    " +:+ pretty i +:+ ". " +:+ addr +:+ " - " +:+ name
             +:+ " (Device ID: " +:+ dev_id +:+ ")");;
      print_gpus (S i) rest
  end.

(** Lines 188-202 of the source: what [main] does with the selected
    device. *)
Definition extract_selected (args : Args) (addr dev_id : string) : M unit :=
  let name := get_device_name dev_id in
  print (NL +:+ "[*] Extraindo VBIOS de " +:+ name +:+ " (" +:+ addr
         +:+ ")...");;
  data ← read_vbios_from_device addr;
  if negb (truthy data) then
    print "[!] Falha ao extrair VBIOS";;
    sys_exit 1
  else
    saved ← save_vbios (default [] data) (args_output args);
    if (saved : bool) then
      print (NL +:+ "[+] Sucesso!");;
      print "[*] Próximos passos:";;
      print ("    1. Copie " +:+ args_output args +:+ " para seu Hackintosh");;
      print "    2. Adicione ao OpenCore via DeviceProperties";;
      print "    3. Use o script inject_vbios.py para gerar config"
    else mret ().

(** Lines 162-178: enumerate, give up when nothing was found, list what
    was found. *)
Definition enumerate_and_list : M (list (string * string)) :=
  print "[*] NVDAAL VBIOS Extractor";;
  print "[*] Procurando GPUs NVIDIA...";;
  gpus ← find_nvidia_gpus;
  if bool_decide (gpus = []) then
    print "[!] Nenhuma GPU NVIDIA encontrada.";;
    print "[!] Certifique-se de que:";;
    print "    - Este script está rodando no Linux";;
    print "    - A GPU NVIDIA está instalada";;
    print "    - Você tem permissões de root";;
    sys_exit 1
  else
    print (NL +:+ "[*] " +:+ pretty (length gpus)
           +:+ " GPU(s) NVIDIA encontrada(s):");;
    print_gpus 0 gpus;;
    mret gpus.

(** Lines 162-202: [main] from the point where [parser.parse_args()] has
    returned the namespace [args]; a command line the parser refuses does
    not get here. *)
Definition main (args : Args) : M unit :=
  gpus ← enumerate_and_list;
  if args_list args then sys_exit 0
  else if len gpus <=? args_index args then
    print (NL +:+ "[!] Índice " +:+ pretty (args_index args)
           +:+ " inválido. Use -l para listar GPUs.");;
    sys_exit 1
  else
    '(addr, dev_id) ← lift (getitem gpus (args_index args));
    extract_selected args addr dev_id.

(** The exit status of the process for a given command line, oracle and
    initial world. *)
Definition run_main (args : Args) (ev : env) (w : world) : Z :=
  exit_status (main args ev w).1.

(** ** The validator as the specification words it *)

Module Spec.

Inductive verdict : Type :=
  | TooSmall              (* invalid: absent or shorter than 64 bytes *)
  | BadSignature          (* invalid: offset 0 is not 55 AA *)
  | PciDataLocated        (* valid: PCIR found at the pointer *)
  | SignaturePresent.     (* valid: the weaker positive *)

(** The little-endian 16-bit value at offset 0x18. *)
Definition pointer (image : bytes) : nat :=
  (Byte.to_nat (image !!! 24%nat) + 256 * Byte.to_nat (image !!! 25%nat))%nat.

Definition has_rom_signature (image : bytes) : Prop :=
  image !! 0%nat = Some x55 ∧ image !! 1%nat = Some xaa.

Definition pcir_at (p : nat) (image : bytes) : Prop :=
  image !! p = Some x50 ∧ image !! (p + 1)%nat = Some x43 ∧
  image !! (p + 2)%nat = Some x49 ∧ image !! (p + 3)%nat = Some x52.

#[global] Instance has_rom_signature_dec image : Decision (has_rom_signature image).
Proof. unfold has_rom_signature. apply _. Defined.

#[global] Instance pcir_at_dec p image : Decision (pcir_at p image).
Proof. unfold pcir_at. apply _. Defined.

(** The four steps of section 4.3. *)
Definition validate (image : option bytes) : verdict :=
  match image with
  | None => TooSmall
  | Some img =>
      if decide (length img < 64)%nat then TooSmall
      else if decide (¬ has_rom_signature img) then BadSignature
      else if decide ((pointer img + 4 ≤ length img)%nat
                      ∧ pcir_at (pointer img) img)
      then PciDataLocated
      else SignaturePresent
  end.

(** The [(valid, reason)] pair the program reports for each verdict. *)
Definition report (v : verdict) : bool * string :=
  match v with
  | TooSmall => (false, MSG_TOO_SMALL)
  | BadSignature => (false, MSG_BAD_SIGNATURE)
  | PciDataLocated => (true, MSG_PCIR_FOUND)
  | SignaturePresent => (true, MSG_SIGNATURE_ONLY)
  end.

End Spec.

(** ** Auxiliary definitions for the statements *)

(** The diagnostic the two [except] clauses print for a failed call. *)
Definition capture_diagnostic (pci_addr : string) (e : io_error) : string :=
  match e with
  | EPerm _ => MSG_PERMISSION
  | _ => "[!] Erro ao ler VBIOS em " +:+ pci_addr +:+ ": "
         +:+ exn_str (exn_of_io e)
  end.

(** What the loop of [find_nvidia_gpus] keeps of one directory entry: the
    entry and its trimmed device text when both attribute files exist, both
    reads succeed and the trimmed vendor text is ["0x10de"]. *)
Definition usable (ev : env) (device_dir : string) : option (string * string) :=
  if os_path_exists ev (vendor_path device_dir)
     && os_path_exists ev (device_path device_dir)
  then
    match fs_read_text ev (vendor_path device_dir),
          fs_read_text ev (device_path device_dir) with
    | inr vendor, inr device =>
        if bool_decide (Py.strip vendor = NVIDIA_VENDOR)
        then Some (device_dir, Py.strip device)
        else None
    | _, _ => None
    end
  else None.

(** A computation is [monotone] when it only adds calls to the trace, and
    [starts_with op] when the first call it adds is [op]. *)
Definition monotone {A} (m : M A) : Prop :=
  ∀ ev w, trace w `prefix_of` trace (m ev w).2.

Definition starts_with {A} (op : io_op) (m : M A) : Prop :=
  ∀ ev w, ∃ rest, trace (m ev w).2 = trace w ++ op :: rest.

(** The four calls of the capture protocol, in the order of the source. *)
Definition protocol (pci_addr : string) : list io_op :=
  [OpExists (rom_path pci_addr);
   OpWrite (rom_path pci_addr) ENABLE;
   OpReadBytes (rom_path pci_addr);
   OpWrite (rom_path pci_addr) DISABLE].

(** What the enumerator returns or raises on a machine. *)
Definition enumeration (ev : env) : result (list (string * string)) :=
  if os_path_exists ev PCI_BUS_PATH
  then match os_listdir ev PCI_BUS_PATH with
       | inr entries => Ok (omap (usable ev) entries)
       | inl e => Raise (exn_of_io e)
       end
  else Ok [].

(** The cards the enumerator reports on a machine: none when the PCI root
    is missing or cannot be listed. *)
Definition enumerated (ev : env) : list (string * string) :=
  if os_path_exists ev PCI_BUS_PATH
  then match os_listdir ev PCI_BUS_PATH with
       | inr entries => omap (usable ev) entries
       | inl _ => []
       end
  else [].

(** The calls that only look: existence tests, listings, text reads. *)
Definition is_query (op : io_op) : Prop :=
  match op with
  | OpExists _ | OpListdir _ | OpReadText _ => True
  | _ => False
  end.

(** Text made of white-space characters only: [lstrip] leaves nothing. *)
Definition all_space (s : string) : Prop := Py.lstrip s = "".

(** A machine whose PCI root exists but cannot be listed. *)
Definition unlistable : env :=
  {| os_path_exists := λ _, true;
     os_listdir := λ _, inl (EPerm "Permission denied");
     fs_read_text := λ _, inl (EIO "No such file or directory");
     fs_read_bytes := λ _, inl (EIO "No such file or directory");
     fs_write_fault := λ _ _, None |}.

(** U+00A0, the no-break space, in UTF-8. *)
Definition NBSP : string :=
  String (ascii_of_N 0xC2) (String (ascii_of_N 0xA0) EmptyString).

(** The message of [find_nvidia_gpus] when the PCI root is missing. *)
Definition MSG_NO_PCI : string :=
  "[!] Caminho PCI não encontrado. Este script deve ser executado no Linux.".

(** A machine without a PCI tree in sysfs: no path exists. *)
Definition no_sysfs : env :=
  {| os_path_exists := λ _, false;
     os_listdir := λ _, inl (EIO "No such file or directory");
     fs_read_text := λ _, inl (EIO "No such file or directory");
     fs_read_bytes := λ _, inl (EIO "No such file or directory");
     fs_write_fault := λ _ _, Some (EIO "No such file or directory") |}.

(** A computation [exits_with allowed] when every [sys.exit] code that can
    leave it is an [allowed] one. *)
Definition exits_with (allowed : Z → Prop) {A} (m : M A) : Prop :=
  ∀ ev w code, (m ev w).1 = Raise (SystemExit code) → allowed code.

(** The line [main] prints for the card listed under number [i]. *)
Definition gpu_line (i : nat) (gpu : string * string) : string :=
  "    " +:+ pretty i +:+ ". " +:+ gpu.1 +:+ " - " +:+ get_device_name gpu.2
  +:+ " (Device ID: " +:+ gpu.2 +:+ ")".

(** The three lines that precede the listing. *)
Definition listing_header (gpus : list (string * string)) : list string :=
  ["[*] NVDAAL VBIOS Extractor"; "[*] Procurando GPUs NVIDIA...";
   NL +:+ "[*] " +:+ pretty (length gpus) +:+ " GPU(s) NVIDIA encontrada(s):"].

(** ** Concrete machines *)

(** A 64-byte image that starts 55 AA and whose pointer is 0xFFFF. *)
Definition wild_pointer_image : bytes :=
  [x55; xaa] ++ replicate 22 x00 ++ [xff; xff] ++ replicate 38 x00.

(** A 50-byte image: too small to validate. *)
Definition short_image : bytes := replicate 50 x00.

(** Scenario A of the specification: 55 AA, pointer 0x20, PCIR at 0x20,
    padded to 100 bytes. *)
Definition scenario_a : bytes :=
  [x55; xaa] ++ replicate 22 x00 ++ [x20; x00] ++ replicate 6 x00
  ++ PCIR ++ replicate 64 x00.

(** Scenario B: 55 AA followed by 62 zero bytes. *)
Definition scenario_b : bytes := [x55; xaa] ++ replicate 62 x00.

Definition GPU0 : string := "0000:01:00.0".
Definition GPU1 : string := "0000:02:00.0".

(** A machine with the two cards [GPU0] and [GPU1]: the vendor text of
    [GPU0] is [vendor0], reading a ROM attribute answers [rom], and
    [fault] tells which writes fail. *)
Definition machine (vendor0 : string) (rom : io_error + bytes)
    (fault : string → bytes → option io_error) : env :=
  {| os_path_exists := λ _, true;
     os_listdir := λ p,
       if bool_decide (p = PCI_BUS_PATH) then inr [GPU0; GPU1]
       else inl (EIO "No such file or directory");
     fs_read_text := λ p,
       if bool_decide (p = vendor_path GPU0) then inr vendor0
       else if bool_decide (p = device_path GPU0) then inr ("0x2684" +:+ NL)
       else if bool_decide (p = vendor_path GPU1) then inr ("0x10de" +:+ NL)
       else if bool_decide (p = device_path GPU1) then inr ("0x2704" +:+ NL)
       else inl (EIO "No such file or directory");
     fs_read_bytes := λ _, rom;
     fs_write_fault := fault |}.

Definition no_fault : string → bytes → option io_error := λ _ _, None.

(** The enable write is refused. *)
Definition enable_denied : string → bytes → option io_error :=
  λ _ b, if bool_decide (b = ENABLE) then Some (EPerm "Permission denied")
         else None.

(** The disable write fails. *)
Definition disable_fails : string → bytes → option io_error :=
  λ _ b, if bool_decide (b = DISABLE) then Some (EIO "Input/output error")
         else None.

Definition world0 (lines : list string) : world :=
  {| files := ∅; stdin := lines; stdout := []; trace := [] |}.

Arguments rom_path : simpl never.
Arguments vendor_path : simpl never.
Arguments device_path : simpl never.

(** Unfolds the monad so that a run can be followed call by call. *)
Ltac run_io :=
  unfold path_exists, listdir, read_text, read_bytes, write_bytes, input,
    readline, store, log, print, ask, lift, lift_io, raise, sys_exit,
    try_except, mbind, mret, fmap, M_bind, M_ret, M_fmap;
  simpl.

(** * Properties *)

(** ** Slices *)

Section slices.
Context {A : Type}.
Implicit Types (l : list A) (p : nat).

Lemma slice_two l p a b :
  slice p (p + 2) l = [a; b] ↔ l !! p = Some a ∧ l !! (p + 1)%nat = Some b.
Proof.
  unfold slice. replace (p + 2 - p)%nat with 2%nat by lia.
  rewrite <- (Nat.add_0_r p) at 2. rewrite <- !lookup_drop.
  destruct (drop p l) as [|x [|y t]]; simpl; split; intros; destruct_and?; by simplify_eq/=.
Qed.

Lemma slice_four l p a b c d :
  slice p (p + 4) l = [a; b; c; d] ↔
  l !! p = Some a ∧ l !! (p + 1)%nat = Some b ∧
  l !! (p + 2)%nat = Some c ∧ l !! (p + 3)%nat = Some d.
Proof.
  unfold slice. replace (p + 4 - p)%nat with 4%nat by lia.
  rewrite <- (Nat.add_0_r p) at 2. rewrite <- !lookup_drop.
  destruct (drop p l) as [|x [|y [|z [|u t]]]]; simpl; split; intros; destruct_and?; by simplify_eq/=.
Qed.

Lemma slice_two_total l p :
  (p + 2 ≤ length l)%nat →
  ∃ a b, slice p (p + 2) l = [a; b]
         ∧ l !! p = Some a ∧ l !! (p + 1)%nat = Some b.
Proof.
  intros Hlen.
  destruct (lookup_lt_is_Some_2 l p) as [a Ha]; [lia|].
  destruct (lookup_lt_is_Some_2 l (p + 1)) as [b Hb]; [lia|].
  exists a, b. split; [by apply slice_two | done].
Qed.
End slices.

(** The two-byte read at 0x18 never fails on an image of 64 bytes or more,
    and yields the pointer of the specification. *)
Lemma unpack_pointer (d : bytes) :
  (64 ≤ length d)%nat →
  Py.unpack_H (slice 0x18 0x1A d) = Ok (Spec.pointer d).
Proof.
  intros Hlen.
  destruct (slice_two_total d 24) as (a & b & Hs & Ha & Hb); [lia|].
  change (slice 0x18 0x1A d) with (slice 24 (24 + 2) d). rewrite Hs.
  unfold Spec.pointer.
  by rewrite (list_lookup_total_correct _ _ _ Ha),
             (list_lookup_total_correct _ _ _ Hb).
Qed.

Lemma signature_slice (d : bytes) :
  slice 0 2 d = ROM_SIGNATURE ↔ Spec.has_rom_signature d.
Proof. apply (slice_two d 0). Qed.

Lemma pcir_slice (d : bytes) (p : nat) :
  slice p (p + 4) d = PCIR ↔ Spec.pcir_at p d.
Proof. apply slice_four. Qed.

Lemma len_lt_64 (d : bytes) : (len d <? 64) = bool_decide (length d < 64)%nat.
Proof.
  unfold len. destruct (Z.ltb_spec (Z.of_nat (length d)) 64);
    [rewrite bool_decide_eq_true_2 | rewrite bool_decide_eq_false_2]; lia.
Qed.

(** The two regimes of [validate_vbios]: below 64 bytes nothing is read;
    from 64 bytes on the header read succeeds and the pointer is known. *)
Lemma validate_vbios_small (d : bytes) :
  (length d < 64)%nat → validate_vbios (Some d) = Ok (false, MSG_TOO_SMALL).
Proof.
  intros Hsmall. unfold validate_vbios. rewrite len_lt_64.
  rewrite bool_decide_eq_true_2 by done. by rewrite orb_true_r.
Qed.

Lemma validate_vbios_large (d : bytes) :
  (64 ≤ length d)%nat →
  validate_vbios (Some d) =
    if bool_decide (slice 0 2 d = ROM_SIGNATURE) then
      let p := Spec.pointer d in
      if Z.of_nat p + 4 <=? len d then
        if bool_decide (slice p (p + 4) d = PCIR) then Ok (true, MSG_PCIR_FOUND)
        else Ok (true, MSG_SIGNATURE_ONLY)
      else Ok (true, MSG_SIGNATURE_ONLY)
    else Ok (false, MSG_BAD_SIGNATURE).
Proof.
  intros Hbig. unfold validate_vbios. rewrite len_lt_64.
  rewrite bool_decide_eq_false_2 by lia.
  assert (truthy (Some d) = true) as ->.
  { destruct d; [simpl in Hbig; lia | done]. }
  simpl negb at 1. simpl orb. cbv iota.
  destruct (bool_decide (slice 0 2 d = ROM_SIGNATURE)); [|done].
  simpl negb. cbv iota. by rewrite unpack_pointer.
Qed.

(** C4: for every byte sequence (and for an absent image), [validate_vbios]
    returns exactly the four-step classification of the specification:
    too small below 64 bytes, else bad signature unless the image starts
    55 AA, else PCI Data Structure located when the pointer [p] read at 0x18
    has [p + 4 <= length] and the four bytes at [p] are PCIR, else the weaker
    signature-present verdict. *)
Theorem validate_vbios_classification (data : option bytes) :
  validate_vbios data = Ok (Spec.report (Spec.validate data)).
Proof.
  destruct data as [d|]; [|done].
  unfold Spec.validate.
  destruct (decide (length d < 64)%nat) as [Hsmall|Hbig].
  { by apply validate_vbios_small. }
  rewrite validate_vbios_large by lia.
  destruct (decide (¬ Spec.has_rom_signature d)) as [Hbad|Hsig].
  { rewrite bool_decide_eq_false_2; [done|]. by rewrite signature_slice. }
  rewrite bool_decide_eq_true_2; [|apply signature_slice; by apply dec_stable].
  cbv zeta. unfold len. set (p := Spec.pointer d).
  destruct (Z.leb_spec (Z.of_nat p + 4) (Z.of_nat (length d))) as [Hfit|Hout].
  - destruct (decide (Spec.pcir_at p d)) as [Hpcir|Hno].
    + rewrite bool_decide_eq_true_2 by (by apply pcir_slice).
      rewrite decide_True; [done | split; [lia|done]].
    + rewrite bool_decide_eq_false_2 by (by rewrite pcir_slice).
      rewrite decide_False; [done | tauto].
  - rewrite decide_False; [done | lia].
Qed.

(** C7: [validate_vbios] never raises: for every input, the empty sequence
    and the absent image included, it returns a [(valid, reason)] pair; and
    when the image has 64 bytes or more, starts 55 AA and the four bytes at
    the pointer read at 0x18 do not fit in the image (the pointer lies at or
    beyond the end, or fewer than four bytes follow it), the answer is the
    weaker signature-present verdict. *)
Theorem validate_vbios_total (data : option bytes) :
  (∃ r, validate_vbios data = Ok r) ∧
  (∀ d, data = Some d → (64 ≤ length d)%nat → Spec.has_rom_signature d →
        (length d < Spec.pointer d + 4)%nat →
        validate_vbios data = Ok (true, MSG_SIGNATURE_ONLY)).
Proof.
  split.
  - destruct data as [d|]; [|by eexists].
    destruct (decide (length d < 64)%nat) as [Hsmall|Hbig].
    { rewrite validate_vbios_small by done. by eexists. }
    rewrite validate_vbios_large by lia. cbv zeta.
    repeat case_match; by eexists.
  - intros d -> Hbig Hsig Hout.
    rewrite validate_vbios_large by done.
    rewrite bool_decide_eq_true_2 by (by apply signature_slice).
    cbv zeta. unfold len.
    destruct (Z.leb_spec (Z.of_nat (Spec.pointer d) + 4) (Z.of_nat (length d)));
      [lia | done].
Qed.

Lemma validate_vbios_total_witness :
  (∃ r, validate_vbios (Some wild_pointer_image) = Ok r) ∧
  validate_vbios (Some wild_pointer_image) = Ok (true, MSG_SIGNATURE_ONLY).
Proof.
  destruct (validate_vbios_total (Some wild_pointer_image)) as [Htot Hweak].
  split; [exact Htot|].
  apply (Hweak wild_pointer_image).
  - reflexivity.
  - apply Nat.leb_le. vm_compute. reflexivity.
  - split; reflexivity.
  - apply Nat.ltb_lt. vm_compute. reflexivity.
Defined.

(** ** The scenarios of the specification *)

Example validate_scenario_a :
  length scenario_a = 100%nat ∧
  validate_vbios (Some scenario_a) = Ok (true, MSG_PCIR_FOUND).
Proof. by vm_compute. Qed.

Example validate_scenario_b :
  length scenario_b = 64%nat ∧
  validate_vbios (Some scenario_b) = Ok (true, MSG_SIGNATURE_ONLY).
Proof. by vm_compute. Qed.

Example validate_scenario_c :
  validate_vbios (Some short_image) = Ok (false, MSG_TOO_SMALL).
Proof. by vm_compute. Qed.

Example validate_scenario_d :
  validate_vbios (Some (replicate 64 x00)) = Ok (false, MSG_BAD_SIGNATURE).
Proof. by vm_compute. Qed.

Example validate_empty :
  validate_vbios (Some []) = Ok (false, MSG_TOO_SMALL) ∧
  validate_vbios None = Ok (false, MSG_TOO_SMALL).
Proof. by vm_compute. Qed.

(** ** Device names *)

Lemma append_nonempty (a s : string) : a ≠ "" → a +:+ s ≠ "".
Proof. by destruct a. Qed.

(** Every name stored in the table is non-empty. *)
Lemma devices_names_nonempty (k v : string) : devices !! k = Some v → v ≠ "".
Proof.
  intros Hk. apply elem_of_list_to_map_2 in Hk.
  repeat (apply elem_of_cons in Hk as [[= -> ->]|Hk]; [done|]).
  by apply elem_of_nil in Hk.
Qed.

(** C9, as the code has it: [get_device_name] is total and its result is
    never empty; the lookup is made on the lower-cased identifier, and an
    identifier whose lower-cased form is not a key of the table maps to
    ["Unknown (<id>)"], built from the identifier as it was given. *)
Theorem get_device_name_total (device_id : string) :
  get_device_name device_id ≠ "" ∧
  (devices !! Py.lower device_id = None →
   get_device_name device_id = "Unknown (" +:+ device_id +:+ ")").
Proof.
  unfold get_device_name. split.
  - destruct (devices !! Py.lower device_id) as [v|] eqn:Hk; simpl.
    + by eapply devices_names_nonempty.
    + by apply append_nonempty.
  - by intros ->.
Qed.

Lemma get_device_name_total_witness :
  get_device_name "0x1234" ≠ "" ∧ get_device_name "0x1234" = "Unknown (0x1234)".
Proof.
  destruct (get_device_name_total "0x1234") as [Hne Hunknown].
  split; [exact Hne|]. apply Hunknown. vm_compute. reflexivity.
Defined.

(** C9 as stated fails: ["0X2684"] is not a key of the table, yet it does
    not map to the sentinel, because the lookup lower-cases it first. *)
Lemma get_device_name_uppercase_prefix :
  devices !! "0X2684" = None ∧
  get_device_name "0X2684" = "RTX 4090" ∧
  get_device_name "0X2684" ≠ "Unknown (0X2684)".
Proof. vm_compute. repeat split; congruence. Qed.

(** ** The device enumerator *)

(** The loop keeps, in order, the usable entries. *)
Lemma find_loop_result (ev : env) (entries : list string) :
  ∀ (gpus : list (string * string)) (w : world),
    (find_loop entries gpus ev w).1 = Ok (gpus ++ omap (usable ev) entries).
Proof.
  induction entries as [|device_dir rest IH]; intros gpus w.
  { simpl. by rewrite app_nil_r. }
  simpl. unfold usable at 1. run_io.
  destruct (os_path_exists ev (vendor_path device_dir)); simpl; [|apply IH].
  destruct (os_path_exists ev (device_path device_dir)); simpl; [|apply IH].
  destruct (fs_read_text ev (vendor_path device_dir)) as [e|vendor]; simpl.
  { destruct e; simpl; apply IH. }
  destruct (fs_read_text ev (device_path device_dir)) as [e|device]; simpl.
  { destruct e; simpl; apply IH. }
  case_bool_decide; simpl; rewrite IH; [|done].
  by rewrite <- app_assoc.
Qed.

Lemma find_nvidia_gpus_result (ev : env) (w : world) :
  (find_nvidia_gpus ev w).1 =
    if os_path_exists ev PCI_BUS_PATH
    then match os_listdir ev PCI_BUS_PATH with
         | inr entries => Ok (omap (usable ev) entries)
         | inl e => Raise (exn_of_io e)
         end
    else Ok [].
Proof.
  unfold find_nvidia_gpus. run_io.
  destruct (os_path_exists ev PCI_BUS_PATH); simpl; [|done].
  destruct (os_listdir ev PCI_BUS_PATH) as [e|entries]; simpl; [done|].
  by rewrite find_loop_result.
Qed.

Lemma lower_nvidia (vendor : string) :
  vendor = NVIDIA_VENDOR → Py.lower vendor = NVIDIA_VENDOR.
Proof. by intros ->. Qed.

(** Which entries of a listing the loop keeps. *)
Lemma usable_entries (ev : env) (entries : list string)
    (device_dir device : string) :
  (device_dir, device) ∈ omap (usable ev) entries ↔
    device_dir ∈ entries ∧
    os_path_exists ev (vendor_path device_dir) = true ∧
    os_path_exists ev (device_path device_dir) = true ∧
    ∃ vendor_text device_text,
      fs_read_text ev (vendor_path device_dir) = inr vendor_text ∧
      fs_read_text ev (device_path device_dir) = inr device_text ∧
      Py.strip vendor_text = "0x10de" ∧
      device = Py.strip device_text.
Proof.
  rewrite list_elem_of_omap. split.
  - intros (d & Hin & Huse). unfold usable in Huse.
    destruct (os_path_exists ev (vendor_path d)) eqn:Hv; [|done].
    destruct (os_path_exists ev (device_path d)) eqn:Hd; [|done].
    simpl in Huse.
    destruct (fs_read_text ev (vendor_path d)) as [|vt] eqn:Hrv; [done|].
    destruct (fs_read_text ev (device_path d)) as [|dt] eqn:Hrd; [done|].
    case_bool_decide as Heq; [|done].
    injection Huse as <- <-.
    rewrite Hv, Hd, Hrv, Hrd. eauto 10.
  - intros (Hin & Hv & Hd & vt & dt & Hrv & Hrd & Heq & ->).
    exists device_dir. split; [done|].
    unfold usable. rewrite Hv, Hd, Hrv, Hrd. simpl.
    by rewrite bool_decide_eq_true_2.
Qed.

(** C5, as the code has it: the enumerator compares the trimmed vendor text
    with ["0x10de"] exactly, letter case included.  When the PCI root is
    missing it returns the empty list; when the root exists and its listing
    fails, the error of the listing leaves the function; when the listing
    succeeds it returns a list, and an entry is in that list, paired with its
    trimmed device text, if and only if it is listed, both attribute files
    exist, both reads succeed and the trimmed vendor text equals ["0x10de"].
    In particular no device whose trimmed vendor text differs from
    ["0x10de"] case-insensitively is ever included. *)
Theorem find_nvidia_gpus_exact_vendor (ev : env) (w : world) :
  (os_path_exists ev PCI_BUS_PATH = false →
   (find_nvidia_gpus ev w).1 = Ok []) ∧
  (∀ e, os_path_exists ev PCI_BUS_PATH = true →
        os_listdir ev PCI_BUS_PATH = inl e →
        (find_nvidia_gpus ev w).1 = Raise (exn_of_io e)) ∧
  (∀ entries,
     os_path_exists ev PCI_BUS_PATH = true →
     os_listdir ev PCI_BUS_PATH = inr entries →
     ∃ gpus, (find_nvidia_gpus ev w).1 = Ok gpus ∧
       (∀ device_dir device,
          (device_dir, device) ∈ gpus ↔
            device_dir ∈ entries ∧
            os_path_exists ev (vendor_path device_dir) = true ∧
            os_path_exists ev (device_path device_dir) = true ∧
            ∃ vendor_text device_text,
              fs_read_text ev (vendor_path device_dir) = inr vendor_text ∧
              fs_read_text ev (device_path device_dir) = inr device_text ∧
              Py.strip vendor_text = "0x10de" ∧
              device = Py.strip device_text) ∧
       (∀ device_dir device vendor_text,
          (device_dir, device) ∈ gpus →
          fs_read_text ev (vendor_path device_dir) = inr vendor_text →
          Py.lower (Py.strip vendor_text) = "0x10de")).
Proof.
  rewrite find_nvidia_gpus_result. split; [by intros ->|].
  split; [by intros e -> ->|].
  intros entries -> ->. eexists. split; [reflexivity|].
  split; [apply usable_entries|].
  intros device_dir device vendor_text Hin Hread.
  apply usable_entries in Hin as (_ & _ & _ & vt & dt & Hrv & _ & Heq & _).
  rewrite Hread in Hrv. injection Hrv as <-.
  by apply lower_nvidia.
Qed.

Lemma find_nvidia_gpus_exact_vendor_witness :
  ∃ gpus,
    (find_nvidia_gpus (machine ("0x10de" +:+ NL) (inr scenario_a) no_fault)
       (world0 [])).1 = Ok gpus ∧
    (GPU0, "0x2684") ∈ gpus.
Proof.
  destruct (find_nvidia_gpus_exact_vendor
              (machine ("0x10de" +:+ NL) (inr scenario_a) no_fault) (world0 []))
    as (_ & _ & Hlist).
  destruct (Hlist [GPU0; GPU1] eq_refl eq_refl) as (gpus & Hrun & Hiff & _).
  exists gpus. split; [exact Hrun|].
  apply (proj2 (Hiff GPU0 "0x2684")).
  split; [by left|]. do 2 (split; [reflexivity|]).
  exists ("0x10de" +:+ NL), ("0x2684" +:+ NL).
  repeat split; vm_compute; reflexivity.
Defined.

(** C5 as stated fails: on a machine whose first card reports its vendor as
    ["0x10DE"], which equals ["0x10de"] case-insensitively after trimming and
    whose attributes are readable, that card is left out of the list. *)
Lemma find_nvidia_gpus_uppercase_vendor :
  let ev := machine ("0x10DE" +:+ NL) (inr scenario_a) no_fault in
  os_listdir ev PCI_BUS_PATH = inr [GPU0; GPU1] ∧
  fs_read_text ev (vendor_path GPU0) = inr ("0x10DE" +:+ NL) ∧
  Py.lower (Py.strip ("0x10DE" +:+ NL)) = "0x10de" ∧
  fs_read_text ev (device_path GPU0) = inr ("0x2684" +:+ NL) ∧
  (find_nvidia_gpus ev (world0 [])).1 = Ok [(GPU1, "0x2704")] ∧
  ∀ device, (GPU0, device) ∉ [(GPU1, "0x2704")].
Proof.
  cbv zeta.
  repeat (split; [by vm_compute|]).
  intros device [Heq|Hin%elem_of_nil]%elem_of_cons; [discriminate Heq | done].
Qed.

(** Trimming on concrete texts: line feeds, the no-break space U+00A0 and
    the ideographic space U+3000 go; letters with continuation bytes stay. *)
Example strip_examples :
  Py.strip ("0x10de" +:+ NL) = "0x10de" ∧
  Py.strip ("0x10de" +:+ NBSP +:+ NL) = "0x10de" ∧
  Py.strip (NBSP +:+ " 0x10de") = "0x10de" ∧
  Py.strip ("  a b  ") = "a b" ∧
  Py.strip (String (ascii_of_N 0xE3)
              (String (ascii_of_N 0x80) (String (ascii_of_N 0x80) "x")))
  = "x" ∧
  Py.strip (String (ascii_of_N 0xC3) (String (ascii_of_N 0xA0) " "))
  = String (ascii_of_N 0xC3) (String (ascii_of_N 0xA0) "").
Proof. by vm_compute. Qed.

(** ** The trace only grows *)

Create HintDb mono.

Section monotone.
Context {A B : Type}.

Lemma mono_ret (a : A) : monotone (mret a).
Proof. by intros ev w. Qed.

Lemma mono_raise (e : exn) : monotone (@raise A e).
Proof. by intros ev w. Qed.

Lemma mono_sys_exit (code : Z) : monotone (@sys_exit A code).
Proof. by intros ev w. Qed.

Lemma mono_lift (r : result A) : monotone (lift r).
Proof. by intros ev w. Qed.

Lemma mono_lift_io (r : io_error + A) : monotone (lift_io r).
Proof. intros ev w. unfold lift_io. by destruct r. Qed.

Lemma mono_ask (f : env → A) : monotone (ask f).
Proof. by intros ev w. Qed.

Lemma mono_bind (m : M A) (k : A → M B) :
  monotone m → (∀ a, monotone (k a)) → monotone (m ≫= k).
Proof.
  intros Hm Hk ev w. unfold mbind, M_bind.
  specialize (Hm ev w). destruct (m ev w) as [[a|e] w']; simpl in *; [|done].
  by etrans; [|apply Hk].
Qed.

Lemma mono_try_except (body : M A) (handler : exn → option (M A)) :
  monotone body → (∀ e h, handler e = Some h → monotone h) →
  monotone (try_except body handler).
Proof.
  intros Hbody Hhandler ev w. unfold try_except.
  specialize (Hbody ev w).
  destruct (body ev w) as [[a|e] w']; simpl in *; [done|].
  destruct (handler e) as [h|] eqn:Hh; [|done].
  by etrans; [|eapply Hhandler].
Qed.

Lemma starts_bind (op : io_op) (m : M A) (k : A → M B) :
  starts_with op m → (∀ a, monotone (k a)) → starts_with op (m ≫= k).
Proof.
  intros Hm Hk ev w. unfold mbind, M_bind.
  destruct (Hm ev w) as [rest Hrest].
  destruct (m ev w) as [[a|e] w']; simpl in *; [|by eexists].
  destruct (Hk a ev w') as [more Hmore]. exists (rest ++ more).
  rewrite Hmore, Hrest. by rewrite <- app_assoc.
Qed.
End monotone.

Lemma mono_log (op : io_op) : monotone (log op).
Proof. intros ev w. by apply prefix_app_r. Qed.

Lemma mono_print (s : string) : monotone (print s).
Proof. by intros ev w. Qed.

Lemma mono_store (p : string) (b : bytes) : monotone (store p b).
Proof. by intros ev w. Qed.

Lemma mono_readline : monotone readline.
Proof. intros ev w. unfold readline. by destruct (stdin w). Qed.

Lemma starts_log (op : io_op) : starts_with op (log op).
Proof. intros ev w. by exists []. Qed.

Lemma starts_print {A} (op : io_op) (s : string) (m : M A) :
  starts_with op m → starts_with op (print s;; m).
Proof.
  intros Hm ev w. unfold mbind, M_bind, print.
  exact (Hm ev {| files := files w; stdin := stdin w;
                  stdout := stdout w ++ [s]; trace := trace w |}).
Qed.

#[global] Hint Resolve mono_ret mono_raise mono_sys_exit mono_lift
  mono_lift_io mono_ask mono_log mono_print mono_store mono_readline : mono.

(** Peels binds, handlers and branches off a [monotone] goal. *)
Ltac mono :=
  repeat first
    [ progress auto with mono
    | apply mono_bind; [|intros]
    | apply mono_try_except; [|intros ? ? ?; repeat case_match; simplify_eq]
    | case_match ].

Lemma mono_write_bytes (p : string) (b : bytes) : monotone (write_bytes p b).
Proof. unfold write_bytes. mono. Qed.

Lemma mono_read_bytes (p : string) : monotone (read_bytes p).
Proof. unfold read_bytes. mono. Qed.

Lemma mono_input (prompt : string) : monotone (input prompt).
Proof. unfold input. mono. Qed.

#[global] Hint Resolve mono_write_bytes mono_read_bytes mono_input : mono.

Lemma mono_save_vbios (data : bytes) (output_file : string) :
  monotone (save_vbios data output_file).
Proof. unfold save_vbios. mono. Qed.

#[global] Hint Resolve mono_save_vbios : mono.

Lemma starts_read_vbios (pci_addr : string) :
  starts_with (OpExists (rom_path pci_addr)) (read_vbios_from_device pci_addr).
Proof.
  unfold read_vbios_from_device, path_exists.
  apply starts_bind; [apply starts_bind; [apply starts_log | mono] | intros].
  mono.
Qed.

(** Whatever happens afterwards, the first call [main] issues for the
    selected card is the existence test of that card's ROM attribute. *)
Lemma extract_selected_probes_rom (args : Args) (addr dev_id : string) :
  starts_with (OpExists (rom_path addr)) (extract_selected args addr dev_id).
Proof.
  unfold extract_selected. apply starts_print.
  apply starts_bind; [apply starts_read_vbios | intros]. mono.
Qed.

(** ** The ROM capture protocol *)


(** The read-failure path: after a successful enable write a failing read
    sends control to the [except] clauses; the disable write is not issued
    and the attribute keeps the enable token. *)
Lemma read_vbios_read_failure (ev : env) (w : world) (pci_addr : string)
    (e : io_error) :
  os_path_exists ev (rom_path pci_addr) = true →
  fs_write_fault ev (rom_path pci_addr) ENABLE = None →
  fs_read_bytes ev (rom_path pci_addr) = inl e →
  read_vbios_from_device pci_addr ev w =
    (Ok None,
     {| files := <[rom_path pci_addr := ENABLE]> (files w);
        stdin := stdin w;
        stdout := stdout w ++ [capture_diagnostic pci_addr e];
        trace := trace w ++ [OpExists (rom_path pci_addr);
                             OpWrite (rom_path pci_addr) ENABLE;
                             OpReadBytes (rom_path pci_addr)] |}).
Proof.
  intros Hpresent Henable Hread.
  unfold read_vbios_from_device. run_io.
  rewrite Hpresent. simpl. rewrite Henable. simpl. rewrite Hread. simpl.
  rewrite <- !app_assoc. by destruct e.
Qed.

(** C1, at a concrete run: the enable write succeeds and the read then
    fails with an I/O error.  The capture returns [None] having issued three
    calls only, none of them the disable write, and the ROM attribute of the
    card still holds the enable token when it returns. *)
Theorem read_vbios_read_failure_skips_disable :
  let ev := machine ("0x10de" +:+ NL) (inl (EIO "Input/output error")) no_fault in
  let run := read_vbios_from_device GPU0 ev (world0 []) in
  os_path_exists ev (rom_path GPU0) = true ∧
  fs_write_fault ev (rom_path GPU0) ENABLE = None ∧
  fs_read_bytes ev (rom_path GPU0) = inl (EIO "Input/output error") ∧
  run.1 = Ok None ∧
  trace run.2 = [OpExists (rom_path GPU0);
                 OpWrite (rom_path GPU0) ENABLE;
                 OpReadBytes (rom_path GPU0)] ∧
  (OpWrite (rom_path GPU0) DISABLE ∉ trace run.2) ∧
  files run.2 !! rom_path GPU0 = Some ENABLE.
Proof.
  cbv zeta.
  rewrite (read_vbios_read_failure _ _ GPU0 (EIO "Input/output error"))
    by reflexivity.
  repeat split; try reflexivity.
  intros Hin. simpl in Hin.
  repeat (apply elem_of_cons in Hin as [Heq|Hin]; [discriminate Heq|]).
  by apply elem_of_nil in Hin.
Qed.

(** C2, as the code has it: when the enable write and the read succeed but
    the disable write fails, the failure is caught by the same [except]
    clauses as any other: the bytes that were read are dropped, the capture
    returns [None] after printing the one diagnostic of the failed call, and
    the attribute keeps the enable token. *)
Theorem read_vbios_disable_failure (ev : env) (w : world) (pci_addr : string)
    (data : bytes) (e : io_error) :
  os_path_exists ev (rom_path pci_addr) = true →
  fs_write_fault ev (rom_path pci_addr) ENABLE = None →
  fs_read_bytes ev (rom_path pci_addr) = inr data →
  fs_write_fault ev (rom_path pci_addr) DISABLE = Some e →
  read_vbios_from_device pci_addr ev w =
    (Ok None,
     {| files := <[rom_path pci_addr := ENABLE]> (files w);
        stdin := stdin w;
        stdout := stdout w ++ [capture_diagnostic pci_addr e];
        trace := trace w ++ [OpExists (rom_path pci_addr);
                             OpWrite (rom_path pci_addr) ENABLE;
                             OpReadBytes (rom_path pci_addr);
                             OpWrite (rom_path pci_addr) DISABLE] |}).
Proof.
  intros Hpresent Henable Hread Hdisable.
  unfold read_vbios_from_device. run_io.
  rewrite Hpresent. simpl. rewrite Henable. simpl. rewrite Hread. simpl.
  rewrite Hdisable. simpl.
  rewrite <- !app_assoc. by destruct e.
Qed.

Lemma read_vbios_disable_failure_witness :
  (read_vbios_from_device GPU0
     (machine ("0x10de" +:+ NL) (inr scenario_a) disable_fails)
     (world0 [])).1 = Ok None.
Proof.
  by rewrite (read_vbios_disable_failure
                (machine ("0x10de" +:+ NL) (inr scenario_a) disable_fails)
                (world0 []) GPU0 scenario_a (EIO "Input/output error")
                eq_refl eq_refl eq_refl eq_refl).
Defined.

(** C2 as stated fails: the enable write and the read succeed, the read
    yields the image of scenario A, the disable write fails, and the capture
    returns [None] instead of the image. *)
Lemma read_vbios_disable_failure_drops_image :
  let ev := machine ("0x10de" +:+ NL) (inr scenario_a) disable_fails in
  let run := read_vbios_from_device GPU0 ev (world0 []) in
  os_path_exists ev (rom_path GPU0) = true ∧
  fs_write_fault ev (rom_path GPU0) ENABLE = None ∧
  fs_read_bytes ev (rom_path GPU0) = inr scenario_a ∧
  fs_write_fault ev (rom_path GPU0) DISABLE = Some (EIO "Input/output error") ∧
  run.1 = Ok None ∧
  run.1 ≠ Ok (Some scenario_a) ∧
  stdout run.2 =
    ["[!] Erro ao ler VBIOS em 0000:01:00.0: Input/output error"].
Proof. vm_compute. repeat split; congruence. Qed.

(** C6: when the ROM attribute exists and the enable write fails with a
    permission error, the capture stops there: the only calls issued are the
    existence test and the enable write (no read, no disable write), nothing
    is stored, the permission-denied diagnostic is printed and the capture
    returns [None]. *)
Theorem read_vbios_enable_denied (ev : env) (w : world) (pci_addr msg : string) :
  os_path_exists ev (rom_path pci_addr) = true →
  fs_write_fault ev (rom_path pci_addr) ENABLE = Some (EPerm msg) →
  read_vbios_from_device pci_addr ev w =
    (Ok None,
     {| files := files w;
        stdin := stdin w;
        stdout := stdout w ++ [MSG_PERMISSION];
        trace := trace w ++ [OpExists (rom_path pci_addr);
                             OpWrite (rom_path pci_addr) ENABLE] |}).
Proof.
  intros Hpresent Hdenied.
  unfold read_vbios_from_device. run_io.
  rewrite Hpresent. simpl. rewrite Hdenied. simpl.
  by rewrite <- app_assoc.
Qed.

Lemma read_vbios_enable_denied_witness :
  read_vbios_from_device GPU0
    (machine ("0x10de" +:+ NL) (inr scenario_a) enable_denied) (world0 []) =
    (Ok None,
     {| files := ∅; stdin := []; stdout := [MSG_PERMISSION];
        trace := [OpExists (rom_path GPU0); OpWrite (rom_path GPU0) ENABLE] |}).
Proof.
  exact (read_vbios_enable_denied
           (machine ("0x10de" +:+ NL) (inr scenario_a) enable_denied)
           (world0 []) GPU0 "Permission denied" eq_refl eq_refl).
Defined.

(** ** Persistence *)

(** C8: for every image that validates as valid, [save_vbios] does not
    consult the confirmation prompt (the input lines are left untouched),
    issues one single write of the whole image to the destination, after
    which the destination holds exactly the bytes of the image, and returns
    [True].  The write is the unguarded [open]/[write] of the source, so the
    statement is for a destination the operating system lets it write. *)
Theorem save_vbios_roundtrip (ev : env) (w : world) (data : bytes)
    (output_file message : string) :
  validate_vbios (Some data) = Ok (true, message) →
  fs_write_fault ev output_file data = None →
  ∃ w',
    save_vbios data output_file ev w = (Ok true, w') ∧
    files w' !! output_file = Some data ∧
    files w' = <[output_file := data]> (files w) ∧
    trace w' = trace w ++ [OpWrite output_file data] ∧
    stdin w' = stdin w.
Proof.
  intros Hvalid Hwrite.
  unfold save_vbios. rewrite Hvalid. run_io. rewrite Hwrite. simpl.
  eexists. split; [reflexivity|]. simpl.
  by rewrite lookup_insert_eq.
Qed.

Lemma save_vbios_roundtrip_witness :
  ∃ w',
    save_vbios scenario_a "vbios.rom"
      (machine ("0x10de" +:+ NL) (inr scenario_a) no_fault) (world0 []) =
      (Ok true, w') ∧
    files w' !! "vbios.rom" = Some scenario_a.
Proof.
  destruct (save_vbios_roundtrip
              (machine ("0x10de" +:+ NL) (inr scenario_a) no_fault)
              (world0 []) scenario_a "vbios.rom" MSG_PCIR_FOUND)
    as (w' & Hrun & Hfile & _).
  - vm_compute. reflexivity.
  - reflexivity.
  - exists w'. split; [exact Hrun | exact Hfile].
Defined.

(** An image that validates as invalid, with an answer other than [y] or
    [Y] at the prompt: [save_vbios] returns [False] and has written
    nothing. *)
Lemma save_vbios_declined (ev : env) (w : world) (data : bytes)
    (output_file message response : string) (rest : list string) :
  validate_vbios (Some data) = Ok (false, message) →
  stdin w = response :: rest →
  Py.lower response ≠ "y" →
  ∃ w',
    save_vbios data output_file ev w = (Ok false, w') ∧
    files w' = files w ∧
    trace w' = trace w ++ [OpInput].
Proof.
  intros Hinvalid Hstdin Hdecline.
  unfold save_vbios. rewrite Hinvalid. run_io. rewrite Hstdin. simpl.
  rewrite bool_decide_eq_false_2 by done. simpl.
  by eexists.
Qed.

(** ** The command-line program *)

(** C3, at a concrete run: the card's ROM reads as 50 zero bytes, which
    validates as invalid, and the user answers [n].  Nothing is written to
    the destination and [save_vbios] returns [False], but [main] then
    returns normally, so the exit status of the process is 0, not 1. *)
Theorem main_declined_save_exits_zero :
  let ev := machine ("0x10de" +:+ NL) (inr short_image) no_fault in
  let run := main default_args ev (world0 ["n"]) in
  validate_vbios (Some short_image) = Ok (false, MSG_TOO_SMALL) ∧
  (save_vbios short_image "vbios.rom" ev (world0 ["n"])).1 = Ok false ∧
  files run.2 !! "vbios.rom" = None ∧
  stdin run.2 = [] ∧
  last (stdout run.2) = Some "Deseja salvar mesmo assim? (y/n): " ∧
  run.1 = Ok () ∧
  run_main default_args ev (world0 ["n"]) = 0.
Proof. vm_compute. done. Qed.

(** From the selection on, with an invalid image and a declined prompt:
    [main] comes to its end without calling [sys.exit]. *)
Lemma extract_selected_declined (args : Args) (ev : env) (w w1 : world)
    (addr dev_id message response : string) (data : bytes)
    (rest : list string) :
  read_vbios_from_device addr ev
    {| files := files w; stdin := stdin w;
       stdout := stdout w ++ [NL +:+ "[*] Extraindo VBIOS de "
                              +:+ get_device_name dev_id +:+ " (" +:+ addr
                              +:+ ")..."];
       trace := trace w |} = (Ok (Some data), w1) →
  data ≠ [] →
  validate_vbios (Some data) = Ok (false, message) →
  stdin w1 = response :: rest →
  Py.lower response ≠ "y" →
  ∃ w2, extract_selected args addr dev_id ev w = (Ok (), w2)
        ∧ files w2 = files w1
        ∧ exit_status (extract_selected args addr dev_id ev w).1 = 0.
Proof.
  intros Hcapture Hdata Hinvalid Hstdin Hdecline.
  destruct (save_vbios_declined ev w1 data (args_output args) message
              response rest Hinvalid Hstdin Hdecline) as (w2 & Hsave & Hfiles & _).
  assert (truthy (Some data) = true) as Htruthy.
  { by destruct data. }
  exists w2.
  assert (extract_selected args addr dev_id ev w = (Ok (), w2)) as Hrun.
  { unfold extract_selected.
    unfold mbind at 1, M_bind at 1, print at 1.
    unfold mbind at 1, M_bind at 1. rewrite Hcapture, Htruthy.
    change (negb true) with false. cbv iota.
    unfold mbind at 1, M_bind at 1. simpl default. by rewrite Hsave. }
  by rewrite Hrun.
Qed.

(** A negative index within [-len(l) .. -1] is accepted by Python's
    indexing and counts from the end. *)
Lemma getitem_negative {A} (l : list A) (n : Z) :
  1 ≤ n ≤ len l →
  ∃ x, l !! (length l - Z.to_nat n)%nat = Some x ∧ getitem l (- n) = Ok x.
Proof.
  unfold len. intros Hn.
  destruct (lookup_lt_is_Some_2 l (length l - Z.to_nat n)) as [x Hx]; [lia|].
  exists x. split; [done|]. unfold getitem, len.
  destruct (Z.ltb_spec (- n) 0); [|lia].
  replace (Z.to_nat (- n + Z.of_nat (length l))) with (length l - Z.to_nat n)%nat
    by lia.
  rewrite Hx.
  destruct (Z.ltb_spec (- n + Z.of_nat (length l)) 0); [lia|].
  destruct (Z.leb_spec (Z.of_nat (length l)) (- n + Z.of_nat (length l)));
    [lia | done].
Qed.

(** C10: once the cards are enumerated and listed, a command line that asks
    for index [-n] with [1 <= n <= len(gpus)] passes the index test (which
    only rejects [index >= len(gpus)]): [main] does not exit there, it
    selects the card [n] places from the end of the list and goes on with
    the capture on that card, whose first call is the existence test of that
    card's ROM attribute. *)
Theorem main_negative_index (args : Args) (ev : env) (w w1 : world)
    (gpus : list (string * string)) (n : Z) :
  enumerate_and_list ev w = (Ok gpus, w1) →
  args_list args = false →
  args_index args = - n →
  1 ≤ n ≤ len gpus →
  ∃ addr dev_id,
    gpus !! (length gpus - Z.to_nat n)%nat = Some (addr, dev_id) ∧
    main args ev w = extract_selected args addr dev_id ev w1 ∧
    ∃ rest, trace (main args ev w).2
            = trace w1 ++ OpExists (rom_path addr) :: rest.
Proof.
  intros Hlist Hmode Hindex Hn.
  destruct (getitem_negative gpus n Hn) as ([addr dev_id] & Hnth & Hget).
  exists addr, dev_id. split; [done|].
  assert (main args ev w = extract_selected args addr dev_id ev w1) as ->.
  { unfold main. unfold mbind at 1, M_bind at 1. rewrite Hlist, Hmode, Hindex.
    destruct (Z.leb_spec (len gpus) (- n)); [lia|].
    rewrite Hget. reflexivity. }
  split; [done | apply extract_selected_probes_rom].
Qed.

Lemma main_negative_index_witness :
  let ev := machine ("0x10de" +:+ NL) (inr scenario_a) no_fault in
  let args := {| args_output := "vbios.rom"; args_list := false;
                 args_index := -1 |} in
  main args ev (world0 []) =
    extract_selected args GPU1 "0x2704" ev
      (enumerate_and_list ev (world0 [])).2 ∧
  ∃ rest, trace (main args ev (world0 [])).2
          = trace (enumerate_and_list ev (world0 [])).2
            ++ OpExists (rom_path GPU1) :: rest.
Proof.
  cbv zeta.
  destruct (main_negative_index
              {| args_output := "vbios.rom"; args_list := false;
                 args_index := -1 |}
              (machine ("0x10de" +:+ NL) (inr scenario_a) no_fault)
              (world0 [])
              (enumerate_and_list
                 (machine ("0x10de" +:+ NL) (inr scenario_a) no_fault)
                 (world0 [])).2
              [(GPU0, "0x2684"); (GPU1, "0x2704")] 1)
    as (addr & dev_id & Hnth & Hmain & Hprobe).
  - vm_compute. reflexivity.
  - reflexivity.
  - reflexivity.
  - unfold len. simpl. lia.
  - simpl in Hnth. injection Hnth as <- <-. split; [exact Hmain | exact Hprobe].
Defined.

(** * Further properties of the program *)

(** ** The capture protocol, on every machine *)

(** Splits a run of [read_vbios_from_device] along the answers of the
    oracle. *)
Ltac capture_cases ev pci_addr :=
  unfold read_vbios_from_device; run_io;
  destruct (os_path_exists ev (rom_path pci_addr)) eqn:Hpresent; simpl;
  [ destruct (fs_write_fault ev (rom_path pci_addr) ENABLE) as [e1|] eqn:Henable;
    simpl;
    [ destruct e1; simpl
    | destruct (fs_read_bytes ev (rom_path pci_addr)) as [e2|bytes_read] eqn:Hread;
      simpl;
      [ destruct e2; simpl
      | destruct (fs_write_fault ev (rom_path pci_addr) DISABLE) as [e3|] eqn:Hdisable;
        simpl; [destruct e3; simpl|] ] ]
  | ].

(** X1: when the ROM attribute file does not exist, the capture gives up at
    once: the existence test is the only call, nothing is written, the
    not-found message is printed and [None] is returned. *)
Theorem read_vbios_missing_rom (ev : env) (w : world) (pci_addr : string) :
  os_path_exists ev (rom_path pci_addr) = false →
  read_vbios_from_device pci_addr ev w =
    (Ok None,
     {| files := files w;
        stdin := stdin w;
        stdout := stdout w ++ ["[!] ROM não encontrada em " +:+ rom_path pci_addr];
        trace := trace w ++ [OpExists (rom_path pci_addr)] |}).
Proof.
  intros Hmissing. unfold read_vbios_from_device. run_io.
  by rewrite Hmissing.
Qed.

(** X3: the calls a capture issues are always a non-empty prefix of
    exists, enable write, read, disable write, in that order; the capture
    consumes no input and changes no file other than the ROM attribute of
    the card. *)
Theorem read_vbios_protocol_order (ev : env) (w : world) (pci_addr : string) :
  let w' := (read_vbios_from_device pci_addr ev w).2 in
  (∃ k, (1 ≤ k ≤ 4)%nat ∧ trace w' = trace w ++ take k (protocol pci_addr)) ∧
  stdin w' = stdin w ∧
  (∀ p, p ≠ rom_path pci_addr → files w' !! p = files w !! p).
Proof.
  cbv zeta. capture_cases ev pci_addr; rewrite <- ?app_assoc; simpl;
    (split; [|split; [done|]]);
    try (intros p Hp; by rewrite ?lookup_insert_ne);
    try done.
  all: first [ by exists 2%nat; split; [lia|]
             | by exists 3%nat; split; [lia|]
             | by exists 4%nat; split; [lia|]
             | by exists 1%nat; split; [lia|] ].
Qed.

(** X4: the capture returns bytes exactly when all four calls succeed,
    and then they are the bytes the read yielded and the ROM attribute has
    been written back to the disable token. *)
Theorem read_vbios_returns_bytes_iff (ev : env) (w : world)
    (pci_addr : string) (data : bytes) :
  ((read_vbios_from_device pci_addr ev w).1 = Ok (Some data) ↔
     os_path_exists ev (rom_path pci_addr) = true ∧
     fs_write_fault ev (rom_path pci_addr) ENABLE = None ∧
     fs_read_bytes ev (rom_path pci_addr) = inr data ∧
     fs_write_fault ev (rom_path pci_addr) DISABLE = None) ∧
  ((read_vbios_from_device pci_addr ev w).1 = Ok (Some data) →
     files (read_vbios_from_device pci_addr ev w).2 !! rom_path pci_addr
     = Some DISABLE).
Proof.
  capture_cases ev pci_addr;
    (split; [split; [intros [=]; subst | intros (? & ? & ? & ?); simplify_eq]
            | intros [=]; subst ]);
    try done.
  by rewrite lookup_insert_eq.
Qed.

(** X5: a capture that fails leaves the output of the run one line longer:
    every [None] comes with exactly one diagnostic. *)
Theorem read_vbios_failure_is_reported (ev : env) (w : world)
    (pci_addr : string) :
  (read_vbios_from_device pci_addr ev w).1 = Ok None →
  ∃ line, stdout (read_vbios_from_device pci_addr ev w).2 = stdout w ++ [line].
Proof.
  capture_cases ev pci_addr; intros [=]; by eexists.
Qed.

Lemma read_vbios_failure_is_reported_witness :
  ∃ line,
    stdout (read_vbios_from_device GPU0
              (machine ("0x10de" +:+ NL) (inr scenario_a) enable_denied)
              (world0 [])).2 = [] ++ [line].
Proof.
  apply (read_vbios_failure_is_reported
           (machine ("0x10de" +:+ NL) (inr scenario_a) enable_denied)
           (world0 []) GPU0).
  vm_compute. reflexivity.
Defined.

Lemma read_vbios_missing_rom_witness :
  (read_vbios_from_device GPU0 no_sysfs (world0 [])).1 = Ok None.
Proof.
  by rewrite (read_vbios_missing_rom no_sysfs (world0 []) GPU0 eq_refl).
Defined.

(** ** The validator *)

(** Every input gets a verdict. *)
Lemma validate_vbios_returns (data : option bytes) :
  ∃ valid message, validate_vbios data = Ok (valid, message).
Proof.
  destruct data as [d|]; [|by do 2 eexists].
  destruct (decide (length d < 64)%nat) as [Hsmall|Hbig].
  { rewrite validate_vbios_small by done. by do 2 eexists. }
  rewrite validate_vbios_large by lia. cbv zeta.
  repeat case_match; by do 2 eexists.
Qed.

(** X6: the [valid] flag depends on the length and on the first two bytes
    only: an image is reported valid exactly when it has at least 64 bytes
    and starts 55 AA, whether or not a PCIR structure is found. *)
Theorem validate_vbios_valid_iff (d : bytes) :
  (∃ message, validate_vbios (Some d) = Ok (true, message)) ↔
  (64 ≤ length d)%nat ∧ take 2 d = [x55; xaa].
Proof.
  destruct (decide (length d < 64)%nat) as [Hsmall|Hbig].
  { rewrite validate_vbios_small by done. split.
    - by intros [? [=]].
    - intros [? _]. lia. }
  rewrite validate_vbios_large by lia. cbv zeta.
  change (slice 0 2 d) with (take 2 d). unfold ROM_SIGNATURE.
  case_bool_decide as Hsig.
  - split; [intros _; split; [lia|done] | intros _].
    repeat case_match; by eexists.
  - split; [by intros [? [=]] | by intros [_ ?]].
Qed.

Section padding.
Variables (d t : bytes).
Hypothesis Hbig : (64 ≤ length d)%nat.

Lemma pointer_app : Spec.pointer (d ++ t) = Spec.pointer d.
Proof.
  unfold Spec.pointer. by rewrite !lookup_total_app_l by lia.
Qed.

Lemma slice_app (lo hi : nat) :
  (hi ≤ length d)%nat → slice lo hi (d ++ t) = slice lo hi d.
Proof.
  intros Hhi. unfold slice.
  destruct (decide (lo ≤ length d)%nat) as [Hlo|Hlo].
  - rewrite drop_app_le by done.
    rewrite take_app_le; [done | rewrite length_drop; lia].
  - by replace (hi - lo)%nat with 0%nat by lia.
Qed.

(** X7: padding an image of 64 bytes or more at its end never changes the
    [valid] flag, and an image in which the PCIR structure was found keeps
    that verdict. *)
Theorem validate_vbios_padding (valid : bool) (message : string) :
  validate_vbios (Some d) = Ok (valid, message) →
  ∃ message',
    validate_vbios (Some (d ++ t)) = Ok (valid, message') ∧
    (message = MSG_PCIR_FOUND → message' = MSG_PCIR_FOUND).
Proof.
  rewrite !validate_vbios_large by (rewrite ?length_app; lia).
  cbv zeta. rewrite pointer_app, (slice_app 0 2) by lia.
  case_bool_decide as Hsig; [|intros [= <- <-]; by eexists].
  unfold len.
  destruct (Z.leb_spec (Z.of_nat (Spec.pointer d) + 4) (Z.of_nat (length d)))
    as [Hfit|Hout].
  - rewrite slice_app by lia.
    destruct (Z.leb_spec (Z.of_nat (Spec.pointer d) + 4)
                (Z.of_nat (length (d ++ t)))) as [_|Hno];
      [|rewrite length_app in Hno; lia].
    case_bool_decide; intros [= <- <-]; by eexists.
  - intros [= <- <-]. repeat case_match; by eexists.
Qed.
End padding.

Lemma validate_vbios_padding_witness :
  ∃ message',
    validate_vbios (Some (scenario_a ++ replicate 28 xff)) = Ok (true, message')
    ∧ (MSG_PCIR_FOUND = MSG_PCIR_FOUND → message' = MSG_PCIR_FOUND).
Proof.
  apply (validate_vbios_padding scenario_a (replicate 28 xff)).
  - apply Nat.leb_le. vm_compute. reflexivity.
  - vm_compute. reflexivity.
Defined.

(** X8: the verdict reads nothing but the length, the bytes at offsets 0,
    1, 0x18 and 0x19, and the four bytes at the pointer: two images that
    agree there get the same verdict. *)
Theorem validate_vbios_reads_header_only (d1 d2 : bytes) :
  length d1 = length d2 →
  (∀ i, i ∈ [0; 1; 24; 25]%nat → d1 !! i = d2 !! i) →
  (∀ k, (k < 4)%nat → d1 !! (Spec.pointer d1 + k)%nat
                      = d2 !! (Spec.pointer d1 + k)%nat) →
  validate_vbios (Some d1) = validate_vbios (Some d2).
Proof.
  intros Hlen Hhead Hbody.
  destruct (decide (length d1 < 64)%nat) as [Hsmall|Hbig].
  { by rewrite !validate_vbios_small by lia. }
  rewrite !validate_vbios_large by lia. cbv zeta.
  assert (Spec.pointer d2 = Spec.pointer d1) as ->.
  { unfold Spec.pointer. rewrite !list_lookup_total_alt.
    by rewrite !Hhead by set_solver. }
  assert (bool_decide (slice 0 2 d1 = ROM_SIGNATURE)
          = bool_decide (slice 0 2 d2 = ROM_SIGNATURE)) as ->.
  { apply bool_decide_ext. rewrite !signature_slice.
    unfold Spec.has_rom_signature. by rewrite !Hhead by set_solver. }
  assert (bool_decide (slice (Spec.pointer d1) (Spec.pointer d1 + 4) d1 = PCIR)
          = bool_decide (slice (Spec.pointer d1) (Spec.pointer d1 + 4) d2 = PCIR))
    as ->.
  { apply bool_decide_ext. rewrite !pcir_slice. unfold Spec.pcir_at.
    rewrite <- (Nat.add_0_r (Spec.pointer d1)) at 1 5.
    by rewrite !Hbody by lia. }
  unfold len. by rewrite Hlen.
Qed.

Lemma validate_vbios_reads_header_only_witness :
  validate_vbios (Some scenario_b)
  = validate_vbios (Some ([x55; xaa] ++ replicate 22 x00 ++ [x00; x00]
                          ++ replicate 38 xff)).
Proof.
  apply validate_vbios_reads_header_only.
  - reflexivity.
  - intros i Hi. repeat (apply elem_of_cons in Hi as [->|Hi]; [reflexivity|]).
    by apply elem_of_nil in Hi.
  - intros k Hk. change (Spec.pointer scenario_b) with 0%nat.
    destruct k as [|[|[|[|k]]]]; [reflexivity..|lia].
Defined.

(** ** The enumerator *)

(** The loop changes nothing but the trace, to which it adds queries. *)
Lemma find_loop_world (ev : env) (entries : list string) :
  ∀ (gpus : list (string * string)) (w : world),
    ∃ ops,
      (find_loop entries gpus ev w).2 =
        {| files := files w; stdin := stdin w; stdout := stdout w;
           trace := trace w ++ ops |} ∧
      Forall is_query ops.
Proof.
  induction entries as [|device_dir rest IH]; intros gpus w.
  { exists []. simpl. rewrite app_nil_r. by destruct w. }
  simpl. run_io.
  repeat
    match goal with
    | |- context [os_path_exists ev ?p] =>
        destruct (os_path_exists ev p); simpl
    | |- context [fs_read_text ev ?p] =>
        destruct (fs_read_text ev p) as [[]|]; simpl
    | |- context [bool_decide ?P] => destruct (bool_decide P); simpl
    end;
    match goal with
    | |- context [find_loop rest ?g ev ?w1] =>
        destruct (IH g w1) as (ops & -> & Hops); simpl;
        rewrite <- ?app_assoc; simpl;
        eexists; split; [reflexivity|];
        repeat (apply Forall_cons; split; [exact I|]); exact Hops
    end.
Qed.

(** The whole run of the enumerator. *)
Lemma find_nvidia_gpus_run (ev : env) (w : world) :
  ∃ ops,
    find_nvidia_gpus ev w =
      (enumeration ev,
       {| files := files w; stdin := stdin w;
          stdout := stdout w ++ (if os_path_exists ev PCI_BUS_PATH then []
                                 else [MSG_NO_PCI]);
          trace := trace w ++ ops |}) ∧
    Forall is_query ops.
Proof.
  pose proof (find_nvidia_gpus_result ev w) as Hres. revert Hres.
  unfold find_nvidia_gpus, enumeration. run_io.
  destruct (os_path_exists ev PCI_BUS_PATH); simpl.
  - destruct (os_listdir ev PCI_BUS_PATH) as [e|entries]; simpl.
    { intros _. rewrite app_nil_r, <- !app_assoc. simpl.
      eexists. split; [reflexivity|].
      repeat (apply Forall_cons; split; [exact I|]). apply Forall_nil_2. }
    match goal with
    | |- context [find_loop ?l ?g ev ?w1] =>
        destruct (find_loop_world ev l g w1) as (ops & Hw & Hops);
        destruct (find_loop l g ev w1) as [r w2]
    end.
    simpl in *. intros ->. subst w2. rewrite app_nil_r, <- !app_assoc. simpl.
    eexists. split; [reflexivity|].
    repeat (apply Forall_cons; split; [exact I|]). exact Hops.
  - intros _. eexists. split; [reflexivity|].
    repeat (apply Forall_cons; split; [exact I|]). apply Forall_nil_2.
Qed.

Lemma enumeration_found (ev : env) :
  enumerated ev ≠ [] → enumeration ev = Ok (enumerated ev).
Proof.
  unfold enumerated, enumeration.
  destruct (os_path_exists ev PCI_BUS_PATH); [|done].
  by destruct (os_listdir ev PCI_BUS_PATH).
Qed.

Lemma enumeration_none (ev : env) :
  enumerated ev = [] →
  enumeration ev = Ok [] ∨ ∃ e, enumeration ev = Raise (exn_of_io e).
Proof.
  unfold enumerated, enumeration.
  destruct (os_path_exists ev PCI_BUS_PATH); [|by left].
  destruct (os_listdir ev PCI_BUS_PATH) as [e|entries]; [by right; exists e|].
  intros ->. by left.
Qed.

(** X9: enumeration only looks.  Whether it returns a list or the listing
    of the PCI root fails, it leaves the files and the pending input as they
    were, and every call it issues is an existence test, a directory listing
    or a text read; no ROM attribute is read or written. *)
Theorem find_nvidia_gpus_read_only (ev : env) (w : world) :
  files (find_nvidia_gpus ev w).2 = files w ∧
  stdin (find_nvidia_gpus ev w).2 = stdin w ∧
  ∃ ops, trace (find_nvidia_gpus ev w).2 = trace w ++ ops ∧ Forall is_query ops.
Proof.
  destruct (find_nvidia_gpus_run ev w) as (ops & -> & Hops). simpl.
  repeat split; eauto.
Qed.

(** X10: when the PCI root exists and its listing succeeds, the cards come
    out in the order of the listing, each at most as often as it is listed:
    the addresses returned form a sublist of the listing. *)
Theorem find_nvidia_gpus_keeps_order (ev : env) (w : world)
    (entries : list string) :
  os_path_exists ev PCI_BUS_PATH = true →
  os_listdir ev PCI_BUS_PATH = inr entries →
  ∃ gpus, (find_nvidia_gpus ev w).1 = Ok gpus ∧ gpus.*1 `sublist_of` entries.
Proof.
  intros Hroot Hlist.
  rewrite find_nvidia_gpus_result, Hroot, Hlist.
  eexists. split; [reflexivity|]. clear Hroot Hlist.
  induction entries as [|d l IH]; [done|].
  simpl. destruct (usable ev d) as [[d' dev]|] eqn:Huse; simpl.
  - assert (d' = d) as ->; [|by apply sublist_skip].
    unfold usable in Huse. repeat case_match; by simplify_eq.
  - by apply sublist_cons.
Qed.

Lemma find_nvidia_gpus_keeps_order_witness :
  ∃ gpus,
    (find_nvidia_gpus (machine ("0x10DE" +:+ NL) (inr scenario_a) no_fault)
       (world0 [])).1 = Ok gpus ∧
    gpus.*1 `sublist_of` [GPU0; GPU1].
Proof.
  exact (find_nvidia_gpus_keeps_order
           (machine ("0x10DE" +:+ NL) (inr scenario_a) no_fault) (world0 [])
           [GPU0; GPU1] eq_refl eq_refl).
Defined.

(** X11: when the PCI root does not exist the enumerator returns the empty
    list after a single existence test, with its diagnostic; it does not
    list the directory. *)
Theorem find_nvidia_gpus_no_pci_root (ev : env) (w : world) :
  os_path_exists ev PCI_BUS_PATH = false →
  find_nvidia_gpus ev w =
    (Ok [],
     {| files := files w; stdin := stdin w;
        stdout := stdout w ++ [MSG_NO_PCI];
        trace := trace w ++ [OpExists PCI_BUS_PATH] |}).
Proof.
  intros Hmissing. unfold find_nvidia_gpus. run_io. by rewrite Hmissing.
Qed.

Lemma find_nvidia_gpus_no_pci_root_witness :
  (find_nvidia_gpus no_sysfs (world0 [])).1 = Ok [].
Proof.
  by rewrite (find_nvidia_gpus_no_pci_root no_sysfs (world0 []) eq_refl).
Defined.

Lemma append_cons (c : ascii) (s t : string) :
  String c s +:+ t = String c (s +:+ t).
Proof. reflexivity. Qed.

Lemma space1_not_cont (c : ascii) : Py.space1 c = true → Py.is_cont c = false.
Proof.
  unfold Py.space1, Py.is_cont. intros [Hlt _]%andb_true_iff.
  apply N.ltb_lt in Hlt. apply andb_false_iff. left. apply N.leb_gt. lia.
Qed.

Lemma cont_not_space (c : ascii) :
  Py.is_cont c = true →
  Py.space1 c = false ∧ (∀ c2, Py.space2 c c2 = false)
  ∧ (∀ c2 c3, Py.space3 c c2 c3 = false).
Proof.
  unfold Py.is_cont, Py.space1, Py.space2, Py.space3.
  intros [Hlo Hhi]%andb_true_iff. apply N.leb_le in Hlo, Hhi.
  repeat split; intros.
  - apply andb_false_iff. left. apply N.ltb_ge. lia.
  - replace (0xC2 <=? N_of_ascii c)%N with false; [done|].
    symmetry. apply N.leb_gt. lia.
  - replace (0xE0 <=? N_of_ascii c)%N with false; [done|].
    symmetry. apply N.leb_gt. lia.
Qed.

Lemma space2_cont (c1 c2 : ascii) :
  Py.is_cont c2 = false → Py.space2 c1 c2 = false.
Proof.
  intros Hc. unfold Py.space2. rewrite Hc.
  by rewrite andb_false_r.
Qed.

Lemma space3_cont (c1 c2 c3 : ascii) :
  Py.is_cont c2 = false ∨ Py.is_cont c3 = false → Py.space3 c1 c2 c3 = false.
Proof.
  intros Hc. unfold Py.space3. cbv zeta.
  destruct Hc as [-> | ->]; by rewrite ?andb_false_r.
Qed.

(** White space does not start with a continuation byte. *)
Lemma all_space_head (c : ascii) (r : string) :
  all_space (String c r) → Py.is_cont c = false.
Proof.
  unfold all_space. intros Hr.
  destruct (Py.is_cont c) eqn:Hc; [|done].
  destruct (cont_not_space c Hc) as (H1 & H2 & H3).
  simpl in Hr. rewrite H1 in Hr.
  destruct r as [|c2 [|c3 r]]; [done| |]; rewrite H2 in Hr; [done|].
  by rewrite H3 in Hr.
Qed.

(** What starts with a byte that begins no white space, and goes on with
    white space only, is not white space only. *)
Lemma lstrip_stuck1 (c1 : ascii) (r : string) :
  Py.space1 c1 = false → all_space r → Py.lstrip (String c1 r) ≠ "".
Proof.
  intros H1 Hr. simpl. rewrite H1.
  destruct r as [|r1 r]; [done|].
  rewrite space2_cont by (by eapply all_space_head).
  destruct r as [|r2 r]; [done|].
  by rewrite space3_cont by (left; by eapply all_space_head).
Qed.

Lemma lstrip_stuck2 (c1 c2 : ascii) (r : string) :
  Py.space1 c1 = false → Py.space2 c1 c2 = false → all_space r →
  Py.lstrip (String c1 (String c2 r)) ≠ "".
Proof.
  intros H1 H2 Hr. simpl. rewrite H1, H2.
  destruct r as [|r1 r]; [done|].
  by rewrite space3_cont by (right; by eapply all_space_head).
Qed.

Lemma lstrip_space_bounded (n : nat) :
  ∀ l s, (String.length l ≤ n)%nat → all_space l →
         Py.lstrip (l +:+ s) = Py.lstrip s.
Proof.
  unfold all_space.
  induction n as [|n IH]; intros l s Hn Hl.
  { by destruct l; [|simpl in Hn; lia]. }
  destruct l as [|c1 l1]; [done|].
  rewrite append_cons. simpl in Hn, Hl |- *.
  destruct (Py.space1 c1); [apply IH; [lia | done]|].
  destruct l1 as [|c2 l2]; [done|]. rewrite append_cons. simpl in Hn.
  destruct (Py.space2 c1 c2); [apply IH; [lia | done]|].
  destruct l2 as [|c3 l3]; [done|]. rewrite append_cons. simpl in Hn.
  destruct (Py.space3 c1 c2 c3); [|done].
  apply IH; [lia | done].
Qed.

Lemma lstrip_space (l s : string) :
  all_space l → Py.lstrip (l +:+ s) = Py.lstrip s.
Proof. by apply (lstrip_space_bounded (String.length l)). Qed.

(** Appending white space does not change whether a text is white space
    only. *)
Lemma lstrip_empty_bounded (n : nat) (r : string) :
  all_space r →
  ∀ x, (String.length x ≤ n)%nat →
       Py.lstrip (x +:+ r) = "" ↔ Py.lstrip x = "".
Proof.
  intros Hr. induction n as [|n IH]; intros x Hn.
  { destruct x; [|simpl in Hn; lia]. by split. }
  destruct x as [|c1 x1]; [by split|].
  rewrite append_cons. simpl in Hn.
  destruct (Py.space1 c1) eqn:H1.
  { simpl. rewrite H1. apply IH. lia. }
  destruct x1 as [|c2 x2].
  { split; [|by simpl; rewrite H1].
    intros Hempty. by destruct (lstrip_stuck1 c1 r H1 Hr). }
  rewrite append_cons. simpl in Hn.
  destruct (Py.space2 c1 c2) eqn:H2.
  { simpl. rewrite H1, H2. apply IH. lia. }
  destruct x2 as [|c3 x3].
  { split; [|by simpl; rewrite H1, H2].
    intros Hempty. by destruct (lstrip_stuck2 c1 c2 r H1 H2 Hr). }
  rewrite append_cons. simpl in Hn. simpl. rewrite H1, H2.
  destruct (Py.space3 c1 c2 c3); [apply IH; lia | by split].
Qed.

Lemma rstrip_space (s r : string) :
  all_space r → Py.rstrip (s +:+ r) = Py.rstrip s.
Proof.
  intros Hr. induction s as [|c s IH].
  { change ("" +:+ r) with r. destruct r as [|c r]; [done|].
    simpl Py.rstrip. by rewrite Hr. }
  rewrite append_cons.
  pose proof (lstrip_empty_bounded (String.length (String c s)) r Hr
                (String c s) (le_n _)) as Hempty.
  rewrite append_cons in Hempty.
  change (Py.rstrip (String c (s +:+ r)))
    with (match Py.lstrip (String c (s +:+ r)) with
          | EmptyString => EmptyString
          | _ => String c (Py.rstrip (s +:+ r))
          end).
  change (Py.rstrip (String c s))
    with (match Py.lstrip (String c s) with
          | EmptyString => EmptyString
          | _ => String c (Py.rstrip s)
          end).
  rewrite IH.
  destruct (Py.lstrip (String c (s +:+ r))) eqn:Ha;
    destruct (Py.lstrip (String c s)) eqn:Hb; try done.
  - discriminate (proj1 Hempty eq_refl).
  - discriminate (proj2 Hempty eq_refl).
Qed.

Lemma strip_vendor (l r : string) :
  all_space l → all_space r →
  Py.strip (l +:+ NVIDIA_VENDOR +:+ r) = NVIDIA_VENDOR.
Proof.
  intros Hl Hr. unfold Py.strip. rewrite lstrip_space by done.
  change (Py.lstrip (NVIDIA_VENDOR +:+ r)) with (NVIDIA_VENDOR +:+ r).
  by rewrite rstrip_space.
Qed.

(** X12: white space around the vendor text does not matter: a listed
    entry whose two attribute files exist and can be read, and whose vendor
    text is ["0x10de"] with any run of white-space characters before and
    after it (sysfs puts a line feed after it; the non-ASCII spaces such as
    U+00A0 count too), is returned, with its device text trimmed. *)
Theorem find_nvidia_gpus_trims_vendor (ev : env) (w : world)
    (entries : list string) (device_dir l r device_text : string) :
  os_path_exists ev PCI_BUS_PATH = true →
  os_listdir ev PCI_BUS_PATH = inr entries →
  device_dir ∈ entries →
  os_path_exists ev (vendor_path device_dir) = true →
  os_path_exists ev (device_path device_dir) = true →
  fs_read_text ev (vendor_path device_dir) = inr (l +:+ "0x10de" +:+ r) →
  all_space l → all_space r →
  fs_read_text ev (device_path device_dir) = inr device_text →
  ∃ gpus, (find_nvidia_gpus ev w).1 = Ok gpus ∧
          (device_dir, Py.strip device_text) ∈ gpus.
Proof.
  intros Hroot Hlist Hin Hv Hd Hrv Hl Hr Hrd.
  rewrite find_nvidia_gpus_result, Hroot, Hlist.
  eexists. split; [reflexivity|].
  apply usable_entries. split; [done|]. do 2 (split; [done|]).
  exists (l +:+ "0x10de" +:+ r), device_text.
  repeat split; try done. by apply strip_vendor.
Qed.

Lemma find_nvidia_gpus_trims_vendor_witness :
  ∃ gpus,
    (find_nvidia_gpus
       (machine (NBSP +:+ "0x10de" +:+ NBSP +:+ NL) (inr scenario_a) no_fault)
       (world0 [])).1 = Ok gpus ∧
    (GPU0, Py.strip ("0x2684" +:+ NL)) ∈ gpus.
Proof.
  apply (find_nvidia_gpus_trims_vendor
           (machine (NBSP +:+ "0x10de" +:+ NBSP +:+ NL) (inr scenario_a)
              no_fault)
           (world0 []) [GPU0; GPU1] GPU0 NBSP (NBSP +:+ NL) ("0x2684" +:+ NL));
    try reflexivity.
  by left.
Defined.

(** ** Persistence, on every machine *)

(** X13: an invalid image is still saved when the user answers [y] or [Y]:
    one line of input is consumed, the whole image is written to the
    destination and [True] is returned. *)
Theorem save_vbios_override (ev : env) (w : world) (data : bytes)
    (output_file message response : string) (rest : list string) :
  validate_vbios (Some data) = Ok (false, message) →
  stdin w = response :: rest →
  Py.lower response = "y" →
  fs_write_fault ev output_file data = None →
  ∃ w',
    save_vbios data output_file ev w = (Ok true, w') ∧
    files w' = <[output_file := data]> (files w) ∧
    stdin w' = rest ∧
    trace w' = trace w ++ [OpInput; OpWrite output_file data].
Proof.
  intros Hinvalid Hstdin Hyes Hwrite.
  unfold save_vbios. rewrite Hinvalid. run_io. rewrite Hstdin. simpl.
  rewrite bool_decide_eq_true_2 by done. simpl. rewrite Hwrite. simpl.
  eexists. split; [reflexivity|]. simpl.
  by rewrite <- app_assoc.
Qed.

Lemma save_vbios_override_witness :
  ∃ w',
    save_vbios short_image "vbios.rom"
      (machine ("0x10de" +:+ NL) (inr short_image) no_fault) (world0 ["Y"])
    = (Ok true, w') ∧
    files w' = <["vbios.rom" := short_image]> ∅.
Proof.
  destruct (save_vbios_override
              (machine ("0x10de" +:+ NL) (inr short_image) no_fault)
              (world0 ["Y"]) short_image "vbios.rom" MSG_TOO_SMALL "Y" [])
    as (w' & Hrun & Hfiles & _); try reflexivity.
  exists w'. split; [exact Hrun | exact Hfiles].
Defined.

(** X14: when the prompt for an invalid image meets the end of the input,
    [input] raises [EOFError] and nothing catches it: [save_vbios] raises,
    and nothing is written. *)
Theorem save_vbios_prompt_eof (ev : env) (w : world) (data : bytes)
    (output_file message : string) :
  validate_vbios (Some data) = Ok (false, message) →
  stdin w = [] →
  (save_vbios data output_file ev w).1 = Raise EOFError ∧
  files (save_vbios data output_file ev w).2 = files w ∧
  trace (save_vbios data output_file ev w).2 = trace w ++ [OpInput].
Proof.
  intros Hinvalid Hstdin.
  unfold save_vbios. rewrite Hinvalid. run_io. by rewrite Hstdin.
Qed.

Lemma save_vbios_prompt_eof_witness :
  (save_vbios short_image "vbios.rom" no_sysfs (world0 [])).1 = Raise EOFError.
Proof.
  apply (save_vbios_prompt_eof no_sysfs (world0 []) short_image "vbios.rom"
           MSG_TOO_SMALL); reflexivity.
Defined.

(** X15: a write to the destination that fails is not caught: for a valid
    image [save_vbios] issues its one write and the error of that write
    leaves the function, so it returns neither [True] nor [False]; the save
    message is not printed and no input is consumed. *)
Theorem save_vbios_write_failure (ev : env) (w : world) (data : bytes)
    (output_file message : string) (e : io_error) :
  validate_vbios (Some data) = Ok (true, message) →
  fs_write_fault ev output_file data = Some e →
  (save_vbios data output_file ev w).1 = Raise (exn_of_io e) ∧
  stdout (save_vbios data output_file ev w).2
    = stdout w ++ ["[*] Validação: " +:+ message] ∧
  trace (save_vbios data output_file ev w).2
    = trace w ++ [OpWrite output_file data] ∧
  stdin (save_vbios data output_file ev w).2 = stdin w.
Proof.
  intros Hvalid Hwrite.
  unfold save_vbios. rewrite Hvalid. run_io. by rewrite Hwrite.
Qed.

Lemma save_vbios_write_failure_witness :
  (save_vbios scenario_a "vbios.rom" no_sysfs (world0 [])).1
  = Raise (OSError "No such file or directory").
Proof.
  apply (save_vbios_write_failure no_sysfs (world0 []) scenario_a
           "vbios.rom" MSG_PCIR_FOUND (EIO "No such file or directory"));
    reflexivity.
Defined.

(** X16: whenever [save_vbios] returns [True] the destination holds exactly
    the image; when it returns [False] it has attempted no write, so the
    files are as they were; and on every outcome, an exception included, no
    path other than the destination is changed. *)
Theorem save_vbios_writes_when_true (ev : env) (w : world) (data : bytes)
    (output_file : string) :
  let run := save_vbios data output_file ev w in
  (run.1 = Ok true → files run.2 = <[output_file := data]> (files w)) ∧
  (run.1 = Ok false →
     files run.2 = files w ∧ trace run.2 = trace w ++ [OpInput]) ∧
  (∀ p, p ≠ output_file → files run.2 !! p = files w !! p).
Proof.
  cbv zeta.
  destruct (validate_vbios_returns (Some data)) as (valid & message & Hv).
  unfold save_vbios. rewrite Hv. run_io.
  destruct valid; simpl.
  - destruct (fs_write_fault ev output_file data); simpl;
      (split; [|split]); try done; intros; by rewrite ?lookup_insert_ne.
  - destruct (stdin w) as [|response rest]; simpl; [done|].
    case_bool_decide; simpl; [|done].
    destruct (fs_write_fault ev output_file data); simpl;
      (split; [|split]); try done; intros; by rewrite ?lookup_insert_ne.
Qed.

(** ** The command-line program, on every machine *)

Section stepping.
Context {A B : Type}.

Lemma bind_ok (m : M A) (k : A → M B) (ev : env) (w w' : world) (a : A) :
  m ev w = (Ok a, w') → (m ≫= k) ev w = k a ev w'.
Proof. intros Hm. unfold mbind, M_bind. by rewrite Hm. Qed.

Lemma bind_raise (m : M A) (k : A → M B) (ev : env) (w w' : world) (e : exn) :
  m ev w = (Raise e, w') → (m ≫= k) ev w = (Raise e, w').
Proof. intros Hm. unfold mbind, M_bind. by rewrite Hm. Qed.
End stepping.

(** The listing prints one line per card, numbered upwards from [i]. *)
Lemma print_gpus_run (ev : env) (gpus : list (string * string)) :
  ∀ (i : nat) (w : world),
    print_gpus i gpus ev w =
      (Ok (),
       {| files := files w; stdin := stdin w;
          stdout := stdout w ++ imap (λ k, gpu_line (i + k)) gpus;
          trace := trace w |}).
Proof.
  induction gpus as [|[addr dev_id] rest IH]; intros i w.
  { simpl. unfold mret, M_ret. rewrite app_nil_r. by destruct w. }
  simpl print_gpus. erewrite bind_ok by reflexivity. rewrite IH. simpl.
  rewrite <- app_assoc. simpl. rewrite Nat.add_0_r.
  do 4 f_equal. apply imap_ext. intros k g _. simpl. f_equal. lia.
Qed.

Lemma bind_print {B} (s : string) (k : () → M B) (ev : env) (w : world) :
  (print s ≫= k) ev w =
    k () ev {| files := files w; stdin := stdin w; stdout := stdout w ++ [s];
               trace := trace w |}.
Proof. reflexivity. Qed.

(** Steps over the leading statement of a sequence. *)
Ltac step := rewrite bind_print; cbn [files stdin stdout trace].
Ltac step_find ev Hrun ops Hops :=
  match goal with
  | |- context [(find_nvidia_gpus ≫= _) ev ?w0] =>
      destruct (find_nvidia_gpus_run ev w0) as (ops & Hrun & Hops)
  end.

Lemma enumerate_and_list_found (ev : env) (w : world) :
  enumerated ev ≠ [] →
  ∃ ops,
    enumerate_and_list ev w =
      (Ok (enumerated ev),
       {| files := files w; stdin := stdin w;
          stdout := stdout w ++ listing_header (enumerated ev)
                    ++ imap gpu_line (enumerated ev);
          trace := trace w ++ ops |}) ∧
    Forall is_query ops.
Proof.
  intros Hfound.
  assert (os_path_exists ev PCI_BUS_PATH = true) as Hroot.
  { unfold enumerated in Hfound. by destruct (os_path_exists ev PCI_BUS_PATH). }
  unfold enumerate_and_list. do 2 step. step_find ev Hrun ops Hops.
  rewrite (enumeration_found ev Hfound) in Hrun.
  erewrite bind_ok by exact Hrun.
  rewrite bool_decide_eq_false_2 by done. step.
  erewrite bind_ok by apply print_gpus_run.
  unfold mret, M_ret. simpl. rewrite Hroot, app_nil_r, <- !app_assoc. simpl.
  by exists ops.
Qed.

(** With no card to report, the front of [main] ends in [sys.exit(1)], or
    in the error of the listing when the PCI root cannot be listed. *)
Lemma enumerate_and_list_none (ev : env) (w : world) :
  enumerated ev = [] →
  ∃ ops out e,
    enumerate_and_list ev w =
      (Raise e,
       {| files := files w; stdin := stdin w; stdout := stdout w ++ out;
          trace := trace w ++ ops |}) ∧
    (e = SystemExit 1 ∨ ∃ io, e = exn_of_io io) ∧
    Forall is_query ops.
Proof.
  intros Hnone.
  unfold enumerate_and_list. do 2 step. step_find ev Hrun ops Hops.
  destruct (enumeration_none ev Hnone) as [Hempty|[io Hio]].
  - rewrite Hempty in Hrun. erewrite bind_ok by exact Hrun.
    rewrite bool_decide_eq_true_2 by done. cbv iota.
    do 5 step. unfold sys_exit, raise. cbn [stdout files stdin trace].
    rewrite <- !app_assoc. exists ops. do 2 eexists.
    split; [reflexivity|]. split; [by left | done].
  - rewrite Hio in Hrun. erewrite bind_raise by exact Hrun.
    cbn [stdout files stdin trace]. rewrite <- !app_assoc.
    exists ops. do 2 eexists.
    split; [reflexivity|]. split; [right; by exists io | done].
Qed.

(** X2: a PCI root that exists but cannot be listed is fatal: the error of
    [os.listdir] is raised outside any [try], so it leaves
    [find_nvidia_gpus] after the existence test and the listing attempt, no
    attribute having been read, and [main], which does not catch it either,
    ends the process with status 1. *)
Theorem find_nvidia_gpus_listing_failure (ev : env) (w : world)
    (e : io_error) :
  os_path_exists ev PCI_BUS_PATH = true →
  os_listdir ev PCI_BUS_PATH = inl e →
  find_nvidia_gpus ev w =
    (Raise (exn_of_io e),
     {| files := files w; stdin := stdin w; stdout := stdout w;
        trace := trace w ++ [OpExists PCI_BUS_PATH; OpListdir PCI_BUS_PATH] |})
  ∧ ∀ args, (main args ev w).1 = Raise (exn_of_io e) ∧ run_main args ev w = 1.
Proof.
  intros Hroot Hlist.
  assert (∀ w0, find_nvidia_gpus ev w0 =
    (Raise (exn_of_io e),
     {| files := files w0; stdin := stdin w0; stdout := stdout w0;
        trace := trace w0 ++ [OpExists PCI_BUS_PATH; OpListdir PCI_BUS_PATH] |}))
    as Hfind.
  { intros w0. unfold find_nvidia_gpus. run_io. rewrite Hroot. simpl.
    rewrite Hlist. simpl. by rewrite <- app_assoc. }
  split; [apply Hfind|]. intros args.
  assert (∃ w1, enumerate_and_list ev w = (Raise (exn_of_io e), w1))
    as [w1 Hfront].
  { unfold enumerate_and_list. do 2 step.
    erewrite bind_raise by apply Hfind. by eexists. }
  unfold run_main, main. erewrite bind_raise by exact Hfront.
  simpl. split; [done | by destruct e].
Qed.

Lemma find_nvidia_gpus_listing_failure_witness :
  (find_nvidia_gpus unlistable (world0 [])).1
  = Raise (PermissionError "Permission denied")
  ∧ run_main default_args unlistable (world0 []) = 1.
Proof.
  destruct (find_nvidia_gpus_listing_failure unlistable (world0 [])
              (EPerm "Permission denied") eq_refl eq_refl) as [Hfind Hmain].
  split; [by rewrite Hfind | apply (Hmain default_args)].
Defined.

(** X17: when the enumeration finds no card, [main] exits with status 1
    having only looked at sysfs: no file is written and no ROM attribute is
    touched.  (A PCI root that cannot be listed ends the process with
    status 1 as well, through the uncaught error of the listing.) *)
Theorem main_no_gpus (args : Args) (ev : env) (w : world) :
  enumerated ev = [] →
  run_main args ev w = 1 ∧
  files (main args ev w).2 = files w ∧
  ∃ ops, trace (main args ev w).2 = trace w ++ ops ∧ Forall is_query ops.
Proof.
  intros Hnone.
  destruct (enumerate_and_list_none ev w Hnone)
    as (ops & out & e & Hrun & He & Hops).
  unfold run_main, main. erewrite bind_raise by exact Hrun. simpl.
  split; [|by eauto].
  destruct He as [-> | [[] ->]]; done.
Qed.

Lemma main_no_gpus_witness : run_main default_args no_sysfs (world0 []) = 1.
Proof. apply (main_no_gpus default_args no_sysfs (world0 [])). reflexivity. Defined.

(** X18: in list mode with at least one card, [main] prints the three
    header lines and one line per card, numbered from 0 in enumeration
    order, and exits with status 0; it writes no file, reads no input and
    issues queries only, so no ROM attribute is touched. *)
Theorem main_list_mode (args : Args) (ev : env) (w : world) :
  enumerated ev ≠ [] →
  args_list args = true →
  ∃ ops,
    main args ev w =
      (Raise (SystemExit 0),
       {| files := files w; stdin := stdin w;
          stdout := stdout w ++ listing_header (enumerated ev)
                    ++ imap gpu_line (enumerated ev);
          trace := trace w ++ ops |}) ∧
    Forall is_query ops ∧
    run_main args ev w = 0.
Proof.
  intros Hfound Hlist.
  destruct (enumerate_and_list_found ev w Hfound) as (ops & Hrun & Hops).
  exists ops. unfold run_main, main. erewrite bind_ok by exact Hrun.
  by rewrite Hlist.
Qed.

Lemma main_list_mode_witness :
  run_main {| args_output := "vbios.rom"; args_list := true; args_index := 7 |}
    (machine ("0x10de" +:+ NL) (inr scenario_a) no_fault) (world0 []) = 0.
Proof.
  destruct (main_list_mode
              {| args_output := "vbios.rom"; args_list := true; args_index := 7 |}
              (machine ("0x10de" +:+ NL) (inr scenario_a) no_fault) (world0 []))
    as (ops & _ & _ & Hstatus).
  - by vm_compute.
  - reflexivity.
  - exact Hstatus.
Defined.

(** X19: an index at or beyond the number of cards is refused: [main]
    prints the invalid-index message last and exits with status 1, without
    having touched any ROM attribute or written any file. *)
Theorem main_index_too_large (args : Args) (ev : env) (w : world) :
  enumerated ev ≠ [] →
  args_list args = false →
  len (enumerated ev) ≤ args_index args →
  run_main args ev w = 1 ∧
  last (stdout (main args ev w).2) =
    Some (NL +:+ "[!] Índice " +:+ pretty (args_index args)
          +:+ " inválido. Use -l para listar GPUs.") ∧
  files (main args ev w).2 = files w ∧
  ∃ ops, trace (main args ev w).2 = trace w ++ ops ∧ Forall is_query ops.
Proof.
  intros Hfound Hlist Hindex.
  destruct (enumerate_and_list_found ev w Hfound) as (ops & Hrun & Hops).
  unfold run_main, main. erewrite bind_ok by exact Hrun. rewrite Hlist.
  destruct (Z.leb_spec (len (enumerated ev)) (args_index args)); [|lia].
  step. unfold sys_exit, raise. simpl.
  split; [done|]. split; [by rewrite last_snoc|]. split; [done|].
  by exists ops.
Qed.

Lemma main_index_too_large_witness :
  run_main {| args_output := "vbios.rom"; args_list := false; args_index := 2 |}
    (machine ("0x10de" +:+ NL) (inr scenario_a) no_fault) (world0 []) = 1.
Proof.
  apply (main_index_too_large
           {| args_output := "vbios.rom"; args_list := false; args_index := 2 |}
           (machine ("0x10de" +:+ NL) (inr scenario_a) no_fault) (world0 [])).
  - by vm_compute.
  - reflexivity.
  - by vm_compute.
Defined.

(** X20: an index below [-len(gpus)] passes the index test but the list
    access then raises [IndexError], which nothing catches: the process ends
    with status 1 without the invalid-index message, and without having
    touched any ROM attribute or written any file. *)
Theorem main_index_too_negative (args : Args) (ev : env) (w : world) :
  enumerated ev ≠ [] →
  args_list args = false →
  args_index args < - len (enumerated ev) →
  ∃ ops,
    main args ev w =
      (Raise IndexError,
       {| files := files w; stdin := stdin w;
          stdout := stdout w ++ listing_header (enumerated ev)
                    ++ imap gpu_line (enumerated ev);
          trace := trace w ++ ops |}) ∧
    Forall is_query ops ∧
    run_main args ev w = 1.
Proof.
  intros Hfound Hlist Hindex.
  destruct (enumerate_and_list_found ev w Hfound) as (ops & Hrun & Hops).
  exists ops. unfold run_main, main. erewrite bind_ok by exact Hrun.
  rewrite Hlist.
  assert (0 ≤ len (enumerated ev)) by (unfold len; lia).
  destruct (Z.leb_spec (len (enumerated ev)) (args_index args)); [lia|].
  assert (getitem (enumerated ev) (args_index args) = Raise IndexError) as Hget.
  { unfold getitem.
    destruct (Z.ltb_spec (args_index args) 0); [|lia].
    by destruct (Z.ltb_spec (args_index args + len (enumerated ev)) 0); [|lia]. }
  rewrite Hget. by erewrite bind_raise by reflexivity.
Qed.

Lemma main_index_too_negative_witness :
  run_main {| args_output := "vbios.rom"; args_list := false; args_index := -3 |}
    (machine ("0x10de" +:+ NL) (inr scenario_a) no_fault) (world0 []) = 1.
Proof.
  destruct (main_index_too_negative
              {| args_output := "vbios.rom"; args_list := false;
                 args_index := -3 |}
              (machine ("0x10de" +:+ NL) (inr scenario_a) no_fault) (world0 []))
    as (ops & _ & _ & Hstatus).
  - by vm_compute.
  - reflexivity.
  - by vm_compute.
  - exact Hstatus.
Defined.

(** A non-negative index below the number of cards selects by position. *)
Lemma getitem_nonneg {A} (l : list A) (k : nat) (x : A) :
  l !! k = Some x → getitem l (Z.of_nat k) = Ok x.
Proof.
  intros Hk. pose proof (lookup_lt_Some _ _ _ Hk) as Hlt.
  unfold getitem, len.
  destruct (Z.ltb_spec (Z.of_nat k) 0); [lia|].
  destruct (Z.ltb_spec (Z.of_nat k) 0); [lia|].
  destruct (Z.leb_spec (Z.of_nat (length l)) (Z.of_nat k)); [lia|].
  simpl. by rewrite Nat2Z.id, Hk.
Qed.

Lemma main_select (args : Args) (ev : env) (w : world) (k : nat)
    (addr dev_id : string) :
  args_list args = false →
  args_index args = Z.of_nat k →
  enumerated ev !! k = Some (addr, dev_id) →
  ∃ ops,
    main args ev w =
      extract_selected args addr dev_id ev
        {| files := files w; stdin := stdin w;
           stdout := stdout w ++ listing_header (enumerated ev)
                     ++ imap gpu_line (enumerated ev);
           trace := trace w ++ ops |} ∧
    Forall is_query ops.
Proof.
  intros Hlist Hindex Hk.
  assert (enumerated ev ≠ []) as Hfound by (by intros Heq; rewrite Heq in Hk).
  destruct (enumerate_and_list_found ev w Hfound) as (ops & Hrun & Hops).
  exists ops. split; [|done].
  unfold main. erewrite bind_ok by exact Hrun. rewrite Hlist, Hindex.
  pose proof (lookup_lt_Some _ _ _ Hk) as Hlt. unfold len.
  destruct (Z.leb_spec (Z.of_nat (length (enumerated ev))) (Z.of_nat k)); [lia|].
  by rewrite (getitem_nonneg _ _ _ Hk).
Qed.

(** X21: the number printed in front of a card is the index that selects
    it: with [-i k] and [k] below the number of cards, [main] goes on with
    the capture of the card whose line in the listing carries the number
    [k]. *)
Theorem main_selects_listed_card (args : Args) (ev : env) (w : world)
    (k : nat) (addr dev_id : string) :
  args_list args = false →
  args_index args = Z.of_nat k →
  enumerated ev !! k = Some (addr, dev_id) →
  ∃ w1,
    main args ev w = extract_selected args addr dev_id ev w1 ∧
    stdout w1 !! (length (stdout w) + 3 + k)%nat
      = Some (gpu_line k (addr, dev_id)).
Proof.
  intros Hlist Hindex Hk.
  destruct (main_select args ev w k addr dev_id Hlist Hindex Hk)
    as (ops & Hmain & _).
  eexists. split; [exact Hmain|]. cbn [stdout].
  rewrite lookup_app_r by lia.
  replace (length (stdout w) + 3 + k - length (stdout w))%nat
    with (3 + k)%nat by lia.
  change ((imap gpu_line (enumerated ev)) !! k = Some (gpu_line k (addr, dev_id))).
  by rewrite list_lookup_imap, Hk.
Qed.

Lemma main_selects_listed_card_witness :
  ∃ w1,
    main {| args_output := "vbios.rom"; args_list := false; args_index := 1 |}
      (machine ("0x10de" +:+ NL) (inr scenario_a) no_fault) (world0 [])
    = extract_selected
        {| args_output := "vbios.rom"; args_list := false; args_index := 1 |}
        GPU1 "0x2704"
        (machine ("0x10de" +:+ NL) (inr scenario_a) no_fault) w1 ∧
    stdout w1 !! 4%nat = Some (gpu_line 1 (GPU1, "0x2704")).
Proof.
  apply (main_selects_listed_card
           {| args_output := "vbios.rom"; args_list := false; args_index := 1 |}
           (machine ("0x10de" +:+ NL) (inr scenario_a) no_fault) (world0 [])
           1 GPU1 "0x2704"); reflexivity.
Defined.







(** ** The exit codes *)

Section exits.
Context (allowed : Z → Prop) {A B : Type}.

Lemma exits_ret (a : A) : exits_with allowed (mret a).
Proof. by intros ev w code. Qed.

Lemma exits_sys_exit (code : Z) :
  allowed code → exits_with allowed (@sys_exit A code).
Proof. intros Hcode ev w c [= <-]. exact Hcode. Qed.

Lemma exits_lift (r : result A) :
  (∀ code, r ≠ Raise (SystemExit code)) → exits_with allowed (lift r).
Proof. intros Hr ev w code Heq. by destruct (Hr code). Qed.

Lemma exits_lift_io (r : io_error + A) : exits_with allowed (lift_io r).
Proof. intros ev w code. unfold lift_io. by destruct r as [[]|]. Qed.

Lemma exits_ask (f : env → A) : exits_with allowed (ask f).
Proof. by intros ev w code. Qed.

Lemma exits_bind (m : M A) (k : A → M B) :
  exits_with allowed m → (∀ a, exits_with allowed (k a)) →
  exits_with allowed (m ≫= k).
Proof.
  intros Hm Hk ev w code. unfold mbind, M_bind.
  specialize (Hm ev w code).
  destruct (m ev w) as [[a|e] w']; simpl in *; [apply Hk|].
  intros [= ->]. by apply Hm.
Qed.

Lemma exits_fmap (f : A → B) (m : M A) :
  exits_with allowed m → exits_with allowed (f <$> m).
Proof.
  intros Hm ev w code. unfold fmap, M_fmap.
  specialize (Hm ev w code).
  destruct (m ev w) as [[a|e] w']; simpl in *; [done|].
  intros [= ->]. by apply Hm.
Qed.

Lemma exits_try_except (body : M A) (handler : exn → option (M A)) :
  exits_with allowed body →
  (∀ e h, handler e = Some h → exits_with allowed h) →
  exits_with allowed (try_except body handler).
Proof.
  intros Hbody Hhandler ev w code. unfold try_except.
  specialize (Hbody ev w code).
  destruct (body ev w) as [[a|e] w']; simpl in *; [done|].
  destruct (handler e) as [h|] eqn:Hh; [by eapply Hhandler | exact Hbody].
Qed.

Lemma exits_log (op : io_op) : exits_with allowed (log op).
Proof. by intros ev w code. Qed.

Lemma exits_print (s : string) : exits_with allowed (print s).
Proof. by intros ev w code. Qed.

Lemma exits_store (p : string) (b : bytes) : exits_with allowed (store p b).
Proof. by intros ev w code. Qed.

Lemma exits_readline : exits_with allowed readline.
Proof. intros ev w code. unfold readline. by destruct (stdin w). Qed.

Lemma exits_raise_io (e : io_error) :
  exits_with allowed (@raise A (exn_of_io e)).
Proof. intros ev w code. by destruct e. Qed.
End exits.

Lemma getitem_no_exit {A} (l : list A) (i code : Z) :
  getitem l i ≠ Raise (SystemExit code).
Proof. unfold getitem. by repeat case_match. Qed.

Lemma validate_vbios_no_exit (data : option bytes) (code : Z) :
  validate_vbios data ≠ Raise (SystemExit code).
Proof.
  destruct (validate_vbios_returns data) as (valid & message & ->). done.
Qed.

Create HintDb exits.

#[global] Hint Resolve exits_ret exits_lift_io exits_ask exits_log exits_print
  exits_store exits_readline exits_raise_io : exits.
#[global] Hint Extern 1 (exits_with _ (sys_exit _)) =>
  apply exits_sys_exit; cbv beta; first [lia | congruence] : exits.
#[global] Hint Extern 1 (exits_with _ (lift (getitem _ _))) =>
  apply exits_lift; intros; apply getitem_no_exit : exits.
#[global] Hint Extern 1 (exits_with _ (lift (validate_vbios _))) =>
  apply exits_lift; intros; apply validate_vbios_no_exit : exits.

(** Peels binds, handlers and branches off an [exits_with] goal. *)
Ltac exits :=
  repeat first
    [ progress auto with exits
    | lazymatch goal with
      | |- exits_with _ (fmap _ _) => apply exits_fmap; unfold read_text
      | |- exits_with _ (mbind _ _) => apply exits_bind; [|intros]
      | |- exits_with _ (try_except _ _) =>
          apply exits_try_except;
          [|intros ? ? ?; repeat case_match; simplify_eq]
      end
    | case_match ].

Lemma exits_find_loop (allowed : Z → Prop) (entries : list string) :
  ∀ gpus, exits_with allowed (find_loop entries gpus).
Proof.
  induction entries as [|device_dir rest IH]; intros gpus; simpl.
  - exits.
  - unfold path_exists. exits.
Qed.

Lemma exits_print_gpus (allowed : Z → Prop) (gpus : list (string * string)) :
  ∀ i, exits_with allowed (print_gpus i gpus).
Proof.
  induction gpus as [|[addr dev_id] rest IH]; intros i; simpl; exits.
Qed.

#[global] Hint Resolve exits_find_loop exits_print_gpus : exits.

Ltac unfold_main :=
  unfold main, enumerate_and_list, extract_selected, find_nvidia_gpus,
    read_vbios_from_device, save_vbios, path_exists, listdir, read_bytes,
    write_bytes, input.

Lemma exits_main (args : Args) :
  exits_with (λ code, code = 0 ∨ code = 1) (main args).
Proof. unfold_main. exits. Qed.

Lemma exits_main_capture (args : Args) :
  args_list args = false → exits_with (λ code, code = 1) (main args).
Proof. intros Hlist. unfold_main. exits. Qed.

(** X24: once [parse_args] has returned, the only codes with which [main]
    or a function it calls reaches [sys.exit] are 1 and, in list mode only,
    0. *)
Theorem main_sys_exit_codes (args : Args) (ev : env) (w : world) (code : Z) :
  (main args ev w).1 = Raise (SystemExit code) →
  code = 1 ∨ (code = 0 ∧ args_list args = true).
Proof.
  intros Hexit. destruct (args_list args) eqn:Hlist.
  - destruct (exits_main args ev w code Hexit) as [-> | ->]; [by right | by left].
  - left. exact (exits_main_capture args Hlist ev w code Hexit).
Qed.

Lemma main_sys_exit_codes_witness :
  (1 : Z) = 1 ∨ ((1 : Z) = 0 ∧ args_list default_args = true).
Proof.
  apply (main_sys_exit_codes default_args no_sysfs (world0 [])).
  vm_compute. reflexivity.
Defined.

(** ** Device names and paths *)

Lemma lower_char_idem (c : ascii) :
  Py.lower_char (Py.lower_char c) = Py.lower_char c.
Proof. by destruct c as [[] [] [] [] [] [] [] []]. Qed.

Lemma lower_idem (s : string) : Py.lower (Py.lower s) = Py.lower s.
Proof.
  induction s as [|c s IH]; [done|]. simpl. by rewrite lower_char_idem, IH.
Qed.

(** X25: for an identifier the table knows, letter case does not matter:
    the identifier, its lower-cased form and every other spelling with the
    same lower-cased form resolve to the same name, which is the table's
    entry for the lower-cased form. *)
Theorem get_device_name_ignores_case (device_id name : string) :
  devices !! Py.lower device_id = Some name →
  get_device_name device_id = name ∧
  get_device_name (Py.lower device_id) = name ∧
  (∀ other, Py.lower other = Py.lower device_id →
            get_device_name other = name).
Proof.
  intros Hknown. unfold get_device_name. rewrite lower_idem, Hknown.
  repeat split; [done..|]. intros other ->. by rewrite Hknown.
Qed.

Lemma get_device_name_ignores_case_witness :
  get_device_name "0X2704" = "RTX 4080" ∧
  get_device_name "0x2704" = "RTX 4080".
Proof.
  destruct (get_device_name_ignores_case "0X2704" "RTX 4080") as (H1 & H2 & _).
  - vm_compute. reflexivity.
  - split; [exact H1 | exact H2].
Defined.

Lemma append_assoc (s t u : string) : (s +:+ t) +:+ u = s +:+ t +:+ u.
Proof. induction s as [|c s IH]; [done|]. by rewrite !append_cons, IH. Qed.

Lemma endswith_sep_cons (c : ascii) (s : string) :
  s ≠ "" → endswith_sep (String c s) = endswith_sep s.
Proof. by destruct s. Qed.

Lemma endswith_sep_app (a s : string) :
  s ≠ "" → endswith_sep (a +:+ s) = endswith_sep s.
Proof.
  intros Hs. induction a as [|c a IH]; [done|].
  rewrite append_cons, endswith_sep_cons; [done|]. by destruct a, s.
Qed.

(** X26: the enumerator and the capture address the same directory: for an
    entry name that is not empty and neither starts nor ends with a slash
    (every name a directory listing returns), the vendor and device paths
    built with [os.path.join] are the root, the name and the attribute
    joined by single slashes, and the ROM path built by the capture is the
    path [os.path.join] gives for the attribute [rom] of the same entry. *)
Theorem paths_of_entry (device_dir : string) :
  device_dir ≠ "" →
  startswith_sep device_dir = false →
  endswith_sep device_dir = false →
  vendor_path device_dir = PCI_BUS_PATH +:+ "/" +:+ device_dir +:+ "/vendor" ∧
  device_path device_dir = PCI_BUS_PATH +:+ "/" +:+ device_dir +:+ "/device" ∧
  rom_path device_dir = path_join PCI_BUS_PATH [device_dir; "rom"].
Proof.
  intros Hne Hstart Hend.
  assert (∀ attr, startswith_sep attr = false →
            path_join PCI_BUS_PATH [device_dir; attr]
            = PCI_BUS_PATH +:+ "/" +:+ device_dir +:+ "/" +:+ attr) as Hjoin.
  { intros attr Hattr. unfold path_join. simpl foldl.
    unfold join_step at 2. rewrite Hstart.
    change (bool_decide (PCI_BUS_PATH = "") || endswith_sep PCI_BUS_PATH)
      with false. cbv iota.
    unfold join_step. rewrite Hattr.
    rewrite bool_decide_eq_false_2 by (by unfold PCI_BUS_PATH).
    rewrite (endswith_sep_app PCI_BUS_PATH ("/" +:+ device_dir))
      by (by unfold String.app).
    change ("/" +:+ device_dir) with (String "/" device_dir).
    rewrite endswith_sep_cons, Hend by done. simpl orb. cbv iota.
    by rewrite !append_assoc. }
  unfold vendor_path, device_path, rom_path.
  rewrite !Hjoin by done. by repeat split.
Qed.

Lemma paths_of_entry_witness :
  vendor_path GPU0 = "/sys/bus/pci/devices/0000:01:00.0/vendor" ∧
  rom_path GPU0 = path_join PCI_BUS_PATH [GPU0; "rom"].
Proof.
  destruct (paths_of_entry GPU0) as (Hv & _ & Hr); [done..|].
  split; [exact Hv | exact Hr].
Defined.
